(** * ETW tracing provider of the V8 fork (src/tracing)

    A shallow embedding of [etw-provider.h], [etw-provider.cc],
    [etw-v8-provider.h] and [etw-v8-provider.cc]: the provider state and its
    enable check, the controller callback, the latched registration, the
    catalogue of [LogEventData] call sites and the code-event translator
    with its per-isolate script cache.

    Fixed-width C++ integers are integers of [Z]; a narrowing or widening
    cast is written as the reduction modulo the width of the target.
    Pointers are the integer value of the address.  [std::unordered_map] is
    a [gmap]; a [std::wstring] is the list of its UTF-16 code units; a
    narrow string is a [string] or, where the bytes matter, a list of byte
    values. *)

From Stdlib Require Import ZArith Lia.
From stdpp Require Import base option list strings gmap fin_maps.

Local Open Scope Z_scope.

(** ** Text conversion used by the code-event translator *)

Module Win32.

(** Modelled from the spec: the decoding of the raw name, "a
    non-null-terminated byte span, interpreted as UTF-8", into a wide
    string.  [LogCodeEvent] leaves it to [MultiByteToWideChar] of the
    Windows API, called with [CP_UTF8] and flags [0], which is not among
    the sources.  The model follows the Unicode standard's table of
    well-formed UTF-8 byte sequences; a byte that starts no well-formed
    sequence is replaced by U+FFFD and decoding resumes at the next
    byte. *)

Definition in_range (lo hi b : Z) : bool := (lo <=? b) && (b <=? hi).

Definition is_cont (b : Z) : bool := in_range 0x80 0xBF b.

Definition ok2 (b0 b1 : Z) : bool := in_range 0xC2 0xDF b0 && is_cont b1.

Definition ok3 (b0 b1 b2 : Z) : bool :=
  ((b0 =? 0xE0) && in_range 0xA0 0xBF b1
   || in_range 0xE1 0xEC b0 && is_cont b1
   || (b0 =? 0xED) && in_range 0x80 0x9F b1
   || in_range 0xEE 0xEF b0 && is_cont b1)
  && is_cont b2.

Definition ok4 (b0 b1 b2 b3 : Z) : bool :=
  ((b0 =? 0xF0) && in_range 0x90 0xBF b1
   || in_range 0xF1 0xF3 b0 && is_cont b1
   || (b0 =? 0xF4) && in_range 0x80 0x8F b1)
  && is_cont b2 && is_cont b3.

Definition cp2 (b0 b1 : Z) : Z := (b0 mod 32) * 64 + b1 mod 64.
Definition cp3 (b0 b1 b2 : Z) : Z :=
  (b0 mod 16) * 4096 + (b1 mod 64) * 64 + b2 mod 64.
Definition cp4 (b0 b1 b2 b3 : Z) : Z :=
  (b0 mod 8) * 262144 + (b1 mod 64) * 4096 + (b2 mod 64) * 64 + b3 mod 64.

Definition replacement : Z := 0xFFFD.

(** Modelled from the spec: the span "interpreted as UTF-8", bytes to
    code points. *)
Fixpoint utf8_decode (bs : list Z) : list Z :=
  match bs with
  | [] => []
  | b0 :: r0 =>
    if in_range 0 0x7F b0 then b0 :: utf8_decode r0
    else
      match r0 with
      | [] => [replacement]
      | b1 :: r1 =>
        if ok2 b0 b1 then cp2 b0 b1 :: utf8_decode r1
        else
          match r1 with
          | [] => replacement :: utf8_decode r0
          | b2 :: r2 =>
            if ok3 b0 b1 b2 then cp3 b0 b1 b2 :: utf8_decode r2
            else
              match r2 with
              | [] => replacement :: utf8_decode r0
              | b3 :: r3 =>
                if ok4 b0 b1 b2 b3 then cp4 b0 b1 b2 b3 :: utf8_decode r3
                else replacement :: utf8_decode r0
              end
          end
      end
  end.

(** One code point as UTF-16 code units. *)
Definition utf16_units (cp : Z) : list Z :=
  if cp <? 0x10000 then [cp]
  else [0xD800 + (cp - 0x10000) / 1024; 0xDC00 + (cp - 0x10000) mod 1024].

Definition utf16_of_utf8 (bs : list Z) : list Z :=
  concat (map utf16_units (utf8_decode bs)).

(** Modelled from the spec: the call
    [MultiByteToWideChar(CP_UTF8, 0, str, cbMultiByte, buf, cchWideChar)]
    with [str] the [cbMultiByte] bytes [bs] and [buf] a buffer whose
    [cchWideChar] units are [buf].  A zero [cbMultiByte] is an invalid
    parameter and a result longer than the buffer is
    [ERROR_INSUFFICIENT_BUFFER]: both return [0] and leave the buffer as it
    is.  Otherwise the units are written at the front of the buffer, no
    terminator is added, and their number is returned. *)
Definition MultiByteToWideChar (bs : list Z) (buf : list Z) : Z * list Z :=
  let ws := utf16_of_utf8 bs in
  if bool_decide (bs = []) then (0, buf)
  else if (length buf <? length ws)%nat then (0, buf)
  else (Z.of_nat (length ws), ws ++ drop (length ws) buf).

(** The wide string a reader of a null-terminated buffer sees: the units
    before the first zero. *)
Fixpoint c_str (ws : list Z) : list Z :=
  match ws with
  | [] => []
  | w :: r => if w =? 0 then [] else w :: c_str r
  end.

(** Modelled from the spec: the name field "reencoded to UTF-8", UTF-16
    code units to code points, an unpaired surrogate giving U+FFFD, and
    code points to UTF-8. *)
Definition is_high (w : Z) : bool := in_range 0xD800 0xDBFF w.
Definition is_low (w : Z) : bool := in_range 0xDC00 0xDFFF w.

Fixpoint utf16_decode (ws : list Z) : list Z :=
  match ws with
  | [] => []
  | w0 :: r0 =>
    if is_high w0 then
      match r0 with
      | [] => [replacement]
      | w1 :: r1 =>
        if is_low w1
        then (0x10000 + (w0 - 0xD800) * 1024 + (w1 - 0xDC00)) :: utf16_decode r1
        else replacement :: utf16_decode r0
      end
    else if is_low w0 then replacement :: utf16_decode r0
    else w0 :: utf16_decode r0
  end.

Definition utf8_bytes (cp : Z) : list Z :=
  if cp <? 0x80 then [cp]
  else if cp <? 0x800 then [0xC0 + cp / 64; 0x80 + cp mod 64]
  else if cp <? 0x10000
       then [0xE0 + cp / 4096; 0x80 + (cp / 64) mod 64; 0x80 + cp mod 64]
       else [0xF0 + cp / 262144; 0x80 + (cp / 4096) mod 64;
             0x80 + (cp / 64) mod 64; 0x80 + cp mod 64].

Definition utf8_of_utf16 (ws : list Z) : list Z :=
  concat (map utf8_bytes (utf16_decode ws)).

(** Well-formed UTF-8, by the same table as [utf8_decode]. *)
Fixpoint well_formed (bs : list Z) : bool :=
  match bs with
  | [] => true
  | b0 :: r0 =>
    if in_range 0 0x7F b0 then well_formed r0
    else
      match r0 with
      | [] => false
      | b1 :: r1 =>
        if ok2 b0 b1 then well_formed r1
        else
          match r1 with
          | [] => false
          | b2 :: r2 =>
            if ok3 b0 b1 b2 then well_formed r2
            else
              match r2 with
              | [] => false
              | b3 :: r3 => if ok4 b0 b1 b2 b3 then well_formed r3 else false
              end
          end
      end
  end.

(** A Unicode scalar value: a code point that is no surrogate. *)
Definition scalar (cp : Z) : Prop :=
  0 <= cp < 0xD800 \/ 0xE000 <= cp <= 0x10FFFF.

End Win32.

(** ** etw-provider.h *)

Module Etw.

(** [struct GUID] *)
Record GUID := mkGUID {
  Data1 : Z;
  Data2 : Z;
  Data3 : Z;
  Data4 : list Z
}.

Definition kMaxTraitSize : Z := 40.

(** [struct ProviderState].  [provider_trait] is the [char] buffer of
    [kMaxTraitSize] bytes, held as the list of its byte values. *)
Record ProviderState := mkProviderState {
  regHandle : Z;
  enabled : Z;
  level : Z;
  keywords : Z;
  provider_trait : list Z
}.

(** [struct EventInfo] *)
Record EventInfo := mkEventInfo {
  id : Z;
  ev_level : Z;
  opcode : Z;
  task : Z;
  ev_keywords : Z
}.

Definition kLevelNone : Z := 0.
Definition kLevelFatal : Z := 1.
Definition kLevelError : Z := 2.
Definition kLevelWarning : Z := 3.
Definition kLevelInfo : Z := 4.
Definition kLevelVerbose : Z := 5.

Definition kOpCodeInfo : Z := 0.
Definition kOpCodeStart : Z := 1.
Definition kOpCodeStop : Z := 2.

Definition kTypeUnicodeStr : Z := 1.
Definition kTypeAnsiStr : Z := 2.
Definition kTypeInt8 : Z := 3.
Definition kTypeUInt8 : Z := 4.
Definition kTypeInt16 : Z := 5.
Definition kTypeUInt16 : Z := 6.
Definition kTypeInt32 : Z := 7.
Definition kTypeUInt32 : Z := 8.
Definition kTypeInt64 : Z := 9.
Definition kTypeUInt64 : Z := 10.
Definition kTypeFloat : Z := 11.
Definition kTypeDouble : Z := 12.
Definition kTypeBool32 : Z := 13.
Definition kTypeHexInt32 : Z := 20.
Definition kTypeHexInt64 : Z := 21.

(** [sizeof(void* )] of the target.  The provider is built for 64-bit
    Windows; the 32-bit value [4] selects the other branch of
    [kTypePointer]. *)
Definition sizeof_void_ptr : Z := 8.

Definition kTypePointer : Z :=
  if sizeof_void_ptr =? 8 then kTypeHexInt64 else kTypeHexInt32.

Definition kManifestFreeChannel : Z := 11.

(** The class [EtwProvider] has the single data member [state]; its
    methods are functions of that state. *)

Definition Level (state : ProviderState) : Z := level state.
Definition Keywords (state : ProviderState) : Z := keywords state.

(** [bool IsEnabled()] *)
Definition IsEnabled (state : ProviderState) : bool :=
  if enabled state =? 0 then false else true.

(** [bool IsEnabled(const EventInfo& event)].  The last line converts the
    64-bit value [event.keywords & state.keywords] to [bool]. *)
Definition IsEnabled_event (state : ProviderState) (event : EventInfo) : bool :=
  if enabled state =? 0 then false
  else if ev_level event >? level state then false
  else (ev_keywords event =? 0)
       || negb (Z.land (ev_keywords event) (keywords state) =? 0).

(** [void UpdateState(bool isEnabled, uint8_t level, uint64_t keywords)];
    the assignment [state.enabled = isEnabled] converts [bool] to
    [uint32_t]. *)
Definition UpdateState (state : ProviderState)
    (isEnabled : bool) (lvl : Z) (kw : Z) : ProviderState :=
  {| regHandle := regHandle state;
     enabled := if isEnabled then 1 else 0;
     level := lvl;
     keywords := kw;
     provider_trait := provider_trait state |}.

(** ** etw-provider.cc *)

(** [EtwProvider::Callback]: [context] names the provider whose state is
    updated; [srcId], [allKeyword] and [filter] are not read. *)
Definition Callback (providerState : Z) (lvl : Z)
    (matchAnyKeyword allKeyword : Z) (provider : ProviderState)
    : ProviderState :=
  match providerState with
  | 0 => UpdateState provider false 0 0
  | 1 => UpdateState provider true lvl matchAnyKeyword
  | _ => provider
  end.

(** Calls made to the operating system, in order. *)
Inductive OsCall :=
| os_EventRegister (guid : GUID)
| os_EventUnregister (handle : Z).

(** What lives outside the provider object: the function-local static
    [hr] of [EtwProvider::Register] ([None] until its initialiser has run)
    and the calls made to the operating system so far. *)
Record Runtime := mkRuntime {
  Register_hr : option Z;
  os_calls : list OsCall
}.

(** A [const char*] argument is the [string] of the characters before
    its terminator. *)
Definition strlen (s : string) : Z := Z.of_nat (String.length s).

Definition chars (s : string) : list Z :=
  map (fun c => Z.of_N (Ascii.N_of_ascii c)) (String.list_ascii_of_string s).

(** Storing the bytes [bs] at offset [off] of a buffer. *)
Definition store (off : nat) (bs : list Z) (buf : list Z) : list Z :=
  take off buf ++ bs ++ drop (off + length bs) buf.

Section Registration.

(** [EventRegister] of the operating system: for a provider GUID, the
    status it returns and the handle it stores through its last
    argument. *)
Variable EventRegister : GUID -> Z * Z.

(** [uint32_t EtwProvider::Register(const GUID& guid, const char* providerName)].
    The initialiser of the static [hr] runs on the first call only.
    [trait_size] is a [uint16_t], stored in the first two bytes of the
    trait, low byte first.  [strcpy_s] with a destination of
    [kMaxTraitSize - 2] bytes copies the name and its terminator; a name
    that does not fit invokes the invalid-parameter handler, which ends
    the process: [None]. *)
Definition Register (guid : GUID) (providerName : string)
    (rt : Runtime) (state : ProviderState)
    : option (Runtime * ProviderState * Z) :=
  let '(rt1, state1, hr) :=
    match Register_hr rt with
    | Some hr => (rt, state, hr)
    | None =>
      let '(status, handle) := EventRegister guid in
      ({| Register_hr := Some status;
          os_calls := os_calls rt ++ [os_EventRegister guid] |},
       {| regHandle := handle;
          enabled := enabled state;
          level := level state;
          keywords := keywords state;
          provider_trait := provider_trait state |},
       status)
    end in
  let trait_size := (2 + strlen providerName + 1) mod 65536 in
  let trait1 :=
    store 0 [trait_size mod 256; trait_size / 256] (provider_trait state1) in
  if strlen providerName + 1 <=? kMaxTraitSize - 2 then
    Some (rt1,
          {| regHandle := regHandle state1;
             enabled := enabled state1;
             level := level state1;
             keywords := keywords state1;
             provider_trait := store 2 (chars providerName ++ [0]) trait1 |},
          hr)
  else None.

End Registration.

(** [void EtwProvider::Unregister()] *)
Definition Unregister (rt : Runtime) (state : ProviderState)
    : Runtime * ProviderState :=
  if regHandle state =? 0 then (rt, state)
  else
    ({| Register_hr := Register_hr rt;
        os_calls := os_calls rt ++ [os_EventUnregister (regHandle state)] |},
     {| regHandle := 0;
        enabled := 0;
        level := 0;
        keywords := 0;
        provider_trait := provider_trait state |}).

(** ** etw-v8-provider.h *)

Definition kProviderName : string := "V8.js".

Definition kProviderGuid : GUID :=
  mkGUID 0xca4c76aa 0xe822 0x589e [0x8f; 0x5d; 0x9f; 0xdc; 0xa8; 0xba; 0xd8; 0x13].

Definition kChakraGuid : GUID :=
  mkGUID 0x57277741 0x3638 0x4A4B [0xBD; 0xBA; 0x0A; 0xC6; 0xE4; 0x5D; 0xA5; 0x6C].

Definition kJScriptRuntimeKeyword : Z := 1.

Definition kMethodLoadEvent := mkEventInfo 9 kLevelInfo 10 1 kJScriptRuntimeKeyword.
Definition kSourceLoadEvent := mkEventInfo 41 kLevelInfo 12 2 kJScriptRuntimeKeyword.

Definition kMsgEvent := mkEventInfo 100 kLevelInfo 0 0 0.
Definition kInitializePlatformEvent := mkEventInfo 101 kLevelInfo 0 0 0.
Definition kShutdownPlatformEvent := mkEventInfo 102 kLevelInfo 0 0 0.
Definition kInitializeV8Event := mkEventInfo 103 kLevelInfo 0 0 0.
Definition kTearDownV8Event := mkEventInfo 104 kLevelInfo 0 0 0.
Definition kIsolateStartEvent := mkEventInfo 105 kLevelInfo kOpCodeStart 0 0.
Definition kIsolateStopEvent := mkEventInfo 106 kLevelInfo kOpCodeStop 0 0.
Definition kSnapshotInitStartEvent := mkEventInfo 107 kLevelInfo kOpCodeStart 0 0.
Definition kSnapshotInitStopEvent := mkEventInfo 108 kLevelInfo kOpCodeStop 0 0.
Definition kParsingStartEvent := mkEventInfo 109 kLevelVerbose kOpCodeStart 0 0.
Definition kParsingStopEvent := mkEventInfo 110 kLevelVerbose kOpCodeStop 0 0.
Definition kGenerateUnoptimizedCodeStartEvent :=
  mkEventInfo 111 kLevelVerbose kOpCodeStart 0 0.
Definition kGenerateUnoptimizedCodeStopEvent :=
  mkEventInfo 112 kLevelVerbose kOpCodeStop 0 0.
Definition kJitExecuteStartEvent := mkEventInfo 113 kLevelVerbose kOpCodeStart 0 0.
Definition kJitExecuteStopEvent := mkEventInfo 114 kLevelVerbose kOpCodeStop 0 0.
Definition kJitFinalizeStartEvent := mkEventInfo 115 kLevelVerbose kOpCodeStart 0 0.
Definition kJitFinalizeStopEvent := mkEventInfo 116 kLevelVerbose kOpCodeStop 0 0.
Definition kConcurrentMarkingStartEvent :=
  mkEventInfo 117 kLevelVerbose kOpCodeStart 0 0.
Definition kConcurrentMarkingStopEvent :=
  mkEventInfo 118 kLevelVerbose kOpCodeStop 0 0.
Definition kDeoptEvent := mkEventInfo 119 kLevelVerbose 0 0 0.
Definition kDisableOptEvent := mkEventInfo 120 kLevelVerbose 0 0 0.

(** [using ScriptMapType =
      std::unordered_map<void*, std::unordered_map<int, std::wstring>>] *)
Abbreviation ScriptMapType := (gmap Z (gmap Z (list Z))).

(** The pointer member [isolate_script_map]: null in the zero-initialised
    global, pointing to a map after [new], and left pointing to the freed
    map by [delete]. *)
Inductive ScriptMapPtr :=
| null
| live (m : ScriptMapType)
| dangling.

(** [class V8Provider : public EtwProvider] *)
Record V8Provider := mkV8Provider {
  state : ProviderState;
  isolate_script_map : ScriptMapPtr
}.

(** *** The event description types of [etw-metadata.h]

    Modelled from the spec: [etw-metadata.h], which declares [Field],
    [EventMetadata], [EventDescriptor] and [LogEventData], is not among the
    sources.  A [Field] is a name and a one-byte type tag, an
    [EventMetadata] is the event name and the ordered sequence of its
    fields, and an [EventDescriptor] carries the identity of its
    [EventInfo]. *)

Record FieldT := Field {
  field_name : string;
  field_type : Z
}.

Record EventMetadataT := EventMetadata {
  event_name : string;
  fields : list FieldT
}.

Definition EventDescriptor (info : EventInfo) : EventInfo := info.

(** An argument of a [LogEventData] call, tagged with its C++ type. *)
Inductive Arg :=
| arg_cstr (s : string)        (* const char*        *)
| arg_string (s : string)      (* const std::string& *)
| arg_wstring (w : list Z)     (* const std::wstring& *)
| arg_pointer (p : Z)          (* void*              *)
| arg_int (n : Z)              (* int                *)
| arg_uint16 (n : Z)           (* uint16_t           *)
| arg_uint32 (n : Z)           (* uint32_t           *)
| arg_uint64 (n : Z)           (* uint64_t           *)
| arg_field (f : FieldT).      (* a Field object     *)

(** One call [LogEventData(state, &descriptor, &metadata, args...)].  The
    methods of [V8Provider] return nothing; what they do is the sequence
    of these calls they make. *)
Record Call := LogEventData {
  call_state : ProviderState;
  call_descriptor : EventInfo;
  call_metadata : EventMetadataT;
  call_args : list Arg
}.

(** Modelled from the spec: the field type each C++ argument type is
    marshalled as by [LogEventData] (narrow text for ANSI fields, UTF-16
    text for Unicode fields, integers by value, pointers as the hex
    integer of the address width). *)
Definition arg_has_type (a : Arg) (ty : Z) : bool :=
  match a with
  | arg_cstr _ | arg_string _ => ty =? kTypeAnsiStr
  | arg_wstring _ => ty =? kTypeUnicodeStr
  | arg_pointer _ => ty =? kTypePointer
  | arg_int _ => ty =? kTypeInt32
  | arg_uint16 _ => ty =? kTypeUInt16
  | arg_uint32 _ => ty =? kTypeUInt32
  | arg_uint64 _ => ty =? kTypeUInt64
  | arg_field _ => false
  end.

(** The arguments of a call match its metadata in count, order and
    type. *)
Fixpoint args_match (args : list Arg) (fs : list FieldT) : bool :=
  match args, fs with
  | [], [] => true
  | a :: args', f :: fs' => arg_has_type a (field_type f) && args_match args' fs'
  | _, _ => false
  end.

Definition call_matches (c : Call) : bool :=
  args_match (call_args c) (fields (call_metadata c)).

(** ** etw-v8-provider.cc: the event catalogue *)

Definition LogMsg (p : V8Provider) (msg : string) : list Call :=
  let event_desc := EventDescriptor kMsgEvent in
  let event_meta := EventMetadata "Msg" [Field "Msg" kTypeAnsiStr] in
  [LogEventData (state p) event_desc event_meta [arg_cstr msg]].

Definition LogInitializePlatform (p : V8Provider) : list Call :=
  let event_desc := EventDescriptor kInitializePlatformEvent in
  let event_meta := EventMetadata "InitializePlatform" [] in
  [LogEventData (state p) event_desc event_meta []].

Definition LogShutdownPlatform (p : V8Provider) : list Call :=
  let event_desc := EventDescriptor kShutdownPlatformEvent in
  let event_meta := EventMetadata "ShutdownPlatform" [] in
  [LogEventData (state p) event_desc event_meta []].

Definition LogInitializeV8 (p : V8Provider) : list Call :=
  let event_desc := EventDescriptor kInitializeV8Event in
  let event_meta := EventMetadata "InitializeV8" [] in
  [LogEventData (state p) event_desc event_meta []].

Definition LogTearDownV8 (p : V8Provider) : list Call :=
  let event_desc := EventDescriptor kTearDownV8Event in
  let event_meta := EventMetadata "TearDownV8" [] in
  [LogEventData (state p) event_desc event_meta []].

Definition LogIsolateStart (p : V8Provider) (isolate : Z) : list Call :=
  let event_desc := EventDescriptor kIsolateStartEvent in
  let event_meta := EventMetadata "IsolateStart" [Field "isolate" kTypePointer] in
  [LogEventData (state p) event_desc event_meta [arg_pointer isolate]].

Definition LogIsolateStop (p : V8Provider) (isolate : Z) : list Call :=
  let event_desc := EventDescriptor kIsolateStopEvent in
  let event_meta := EventMetadata "IsolateStop" [Field "isolate" kTypePointer] in
  [LogEventData (state p) event_desc event_meta [arg_pointer isolate]].

Definition LogSnapshotInitStart (p : V8Provider) (isolate : Z) : list Call :=
  let event_desc := EventDescriptor kSnapshotInitStartEvent in
  let event_meta :=
    EventMetadata "SnapshotInitStart" [Field "isolate" kTypePointer] in
  [LogEventData (state p) event_desc event_meta [arg_pointer isolate]].

Definition LogSnapshotInitStop (p : V8Provider) (isolate : Z) : list Call :=
  let event_desc := EventDescriptor kSnapshotInitStopEvent in
  let event_meta :=
    EventMetadata "SnapshotInitStop" [Field "isolate" kTypePointer] in
  [LogEventData (state p) event_desc event_meta [arg_pointer isolate]].

Definition LogParsingStart (p : V8Provider) (isolate : Z) : list Call :=
  let event_desc := EventDescriptor kParsingStartEvent in
  let event_meta := EventMetadata "ParsingStart" [Field "isolate" kTypePointer] in
  [LogEventData (state p) event_desc event_meta [arg_pointer isolate]].

Definition LogParsingStop (p : V8Provider) (isolate : Z) : list Call :=
  let event_desc := EventDescriptor kParsingStopEvent in
  let event_meta := EventMetadata "ParsingStop" [Field "isolate" kTypePointer] in
  [LogEventData (state p) event_desc event_meta [arg_pointer isolate]].

Definition LogGenerateUnoptimizedCodeStart (p : V8Provider) (isolate : Z)
    : list Call :=
  let event_desc := EventDescriptor kGenerateUnoptimizedCodeStartEvent in
  let event_meta :=
    EventMetadata "GenerateUnoptimizedCodeStart" [Field "isolate" kTypePointer] in
  [LogEventData (state p) event_desc event_meta [arg_pointer isolate]].

Definition LogGenerateUnoptimizedCodeStop (p : V8Provider) (isolate : Z)
    : list Call :=
  let event_desc := EventDescriptor kGenerateUnoptimizedCodeStopEvent in
  let event_meta :=
    EventMetadata "GenerateUnoptimizedCodeStop" [Field "isolate" kTypePointer] in
  [LogEventData (state p) event_desc event_meta [arg_pointer isolate]].

Definition LogJitExecuteStart (p : V8Provider) : list Call :=
  let event_desc := EventDescriptor kJitExecuteStartEvent in
  let event_meta := EventMetadata "JitExecuteStart" [] in
  [LogEventData (state p) event_desc event_meta []].

Definition LogJitExecuteStop (p : V8Provider) : list Call :=
  let event_desc := EventDescriptor kJitExecuteStopEvent in
  let event_meta := EventMetadata "JitExecuteStop" [] in
  [LogEventData (state p) event_desc event_meta []].

Definition LogJitFinalizeStart (p : V8Provider) : list Call :=
  let event_desc := EventDescriptor kJitFinalizeStartEvent in
  let event_meta := EventMetadata "JitFinalizeStart" [] in
  [LogEventData (state p) event_desc event_meta []].

Definition LogJitFinalizeStop (p : V8Provider) : list Call :=
  let event_desc := EventDescriptor kJitFinalizeStopEvent in
  let event_meta := EventMetadata "JitFinalizeStop" [] in
  [LogEventData (state p) event_desc event_meta []].

Definition LogDeopt (p : V8Provider) (reason kind src fn : string)
    (line column : Z) : list Call :=
  let event_desc := EventDescriptor kDeoptEvent in
  let event_meta :=
    EventMetadata "Deopt"
      [Field "reason" kTypeAnsiStr;
       Field "kind" kTypeAnsiStr;
       Field "src" kTypeAnsiStr;
       Field "fn" kTypeAnsiStr;
       Field "line" kTypeInt32;
       Field "column" kTypeInt32] in
  [LogEventData (state p) event_desc event_meta
     [arg_string reason; arg_string kind; arg_string src; arg_string fn;
      arg_int line; arg_int column]].

(** The two [Field] objects are arguments of [LogEventData] here, not of
    [EventMetadata]; [fn_name] and [reason] are not passed on. *)
Definition LogDisableOpt (p : V8Provider) (fn_name reason : string)
    : list Call :=
  let event_desc := EventDescriptor kDisableOptEvent in
  let event_meta := EventMetadata "DisableOpt" [] in
  [LogEventData (state p) event_desc event_meta
     [arg_field (Field "fn" kTypeAnsiStr);
      arg_field (Field "reason" kTypeAnsiStr)]].

(** *** The code-event notification of [include/v8.h]

    [v8::JitCodeEvent] with the members the translator reads.  [name] is
    the span [name.str] of [name.len] bytes (shorter than 2^31, so that
    the cast of [name.len] to [int] keeps it); [script] is the
    [Local<UnboundScript>], [None] when empty. *)

Inductive EventType :=
| CODE_ADDED
| CODE_MOVED
| CODE_REMOVED
| CODE_ADD_LINE_POS_INFO
| CODE_START_LINE_INFO_RECORDING
| CODE_END_LINE_INFO_RECORDING.

Inductive CodeType := BYTE_CODE | JIT_CODE.

(** The value [GetScriptName()] returns: a string, with its UTF-16 code
    units, or something that is not a string. *)
Inductive Value :=
| String_value (units : list Z)
| other_value.

Definition IsString (v : Value) : bool :=
  match v with String_value _ => true | other_value => false end.

Record UnboundScript := mkUnboundScript {
  GetId : Z;
  GetScriptName : Value
}.

Record JitCodeEvent := mkJitCodeEvent {
  type : EventType;
  code_type : CodeType;
  code_start : Z;
  code_len : Z;
  script : option UnboundScript;
  name : list Z;
  isolate : Z
}.

(** [std::wstring{L"[unknown]"}] *)
Definition unknown : list Z := chars "[unknown]".

Definition source_load_event_meta : EventMetadataT :=
  EventMetadata "SourceLoad"
    [Field "SourceID" kTypeUInt64;
     Field "ScriptContextID" kTypePointer;
     Field "SourceFlags" kTypeUInt32;
     Field "Url" kTypeUnicodeStr].

Definition method_load_event_meta : EventMetadataT :=
  EventMetadata "MethodLoad"
    [Field "ScriptContextID" kTypePointer;
     Field "MethodStartAddress" kTypePointer;
     Field "MethodSize" kTypeUInt64;
     Field "MethodID" kTypeUInt32;
     Field "MethodFlags" kTypeUInt16;
     Field "MethodAddressRangeID" kTypeUInt16;
     Field "SourceID" kTypeUInt64;
     Field "Line" kTypeUInt32;
     Field "Column" kTypeUInt32;
     Field "MethodName" kTypeUnicodeStr].

(** The [SourceLoad] call of [LogCodeEvent]. *)
Definition source_load_call (st : ProviderState)
    (script_id script_context : Z) (url : list Z) : Call :=
  LogEventData st (EventDescriptor kSourceLoadEvent) source_load_event_meta
    [arg_uint64 (script_id mod 2 ^ 64);
     arg_pointer script_context;
     arg_uint32 0;
     arg_wstring url].

(** The [MethodLoad] call of [LogCodeEvent]. *)
Definition method_load_call (st : ProviderState)
    (script_context : Z) (event : JitCodeEvent) (script_id : Z)
    (method_name : list Z) : Call :=
  LogEventData st (EventDescriptor kMethodLoadEvent) method_load_event_meta
    [arg_pointer script_context;
     arg_pointer (code_start event);
     arg_uint64 (code_len event mod 2 ^ 64);
     arg_uint32 0;
     arg_uint16 0;
     arg_uint16 0;
     arg_uint64 (script_id mod 2 ^ 64);
     arg_uint32 0; arg_uint32 0;
     arg_wstring method_name].

(** The decoded method name: a [std::wstring] of [name_len + 1] zeros,
    overwritten from the front by [MultiByteToWideChar]. *)
Definition decode_method_name (event : JitCodeEvent) : list Z :=
  let name_len := Z.of_nat (length (name event)) in
  let method_name := replicate (Z.to_nat (name_len + 1)) 0 in
  (Win32.MultiByteToWideChar (name event) method_name).2.

(** [void V8Provider::LogCodeEvent(const JitCodeEvent* event)]: the
    provider afterwards and the [LogEventData] calls made, or [None] where
    the script map is reached through a pointer that is null or freed.
    Indexing the outer map with [script_context] creates the isolate's
    map when it is missing; [script_map[script_id]] reads back the entry
    just placed. *)
Definition LogCodeEvent (p : V8Provider) (event : JitCodeEvent)
    : option (V8Provider * list Call) :=
  match code_type event with
  | BYTE_CODE => Some (p, [])
  | JIT_CODE =>
    match type event with
    | CODE_ADDED =>
      let method_name := decode_method_name event in
      let script_context := isolate event in
      match script event with
      | None =>
        Some (p, [method_load_call (state p) script_context event 0 method_name])
      | Some s =>
        let script_id := GetId s in
        match isolate_script_map p with
        | live m =>
          let script_map := default ∅ (m !! script_context) in
          match script_map !! script_id with
          | None =>
            let script_name := GetScriptName s in
            let script_map' :=
              match script_name with
              | String_value wstr_name => <[script_id := wstr_name]> script_map
              | other_value => <[script_id := unknown]> script_map
              end in
            let url := default [] (script_map' !! script_id) in
            Some (mkV8Provider (state p)
                    (live (<[script_context := script_map']> m)),
                  [source_load_call (state p) script_id script_context url;
                   method_load_call (state p) script_context event script_id
                     method_name])
          | Some _ =>
            Some (mkV8Provider (state p)
                    (live (<[script_context := script_map]> m)),
                  [method_load_call (state p) script_context event script_id
                     method_name])
          end
        | null | dangling => None
        end
      end
    | _ => Some (p, [])
    end
  end.

(** [void V8Provider::CodeEventHandler(const JitCodeEvent* event)], a
    static member working on the global [v8Provider]. *)
Definition CodeEventHandler (v8Provider : V8Provider) (event : JitCodeEvent)
    : option (V8Provider * list Call) :=
  if negb (IsEnabled (state v8Provider))
     || (Level (state v8Provider) <? kLevelInfo)
  then Some (v8Provider, [])
  else LogCodeEvent v8Provider event.

(** A sequence of notifications delivered one after the other. *)
Fixpoint LogCodeEvents (p : V8Provider) (events : list JitCodeEvent)
    : option (V8Provider * list Call) :=
  match events with
  | [] => Some (p, [])
  | event :: rest =>
    match LogCodeEvent p event with
    | None => None
    | Some (p1, calls1) =>
      match LogCodeEvents p1 rest with
      | None => None
      | Some (p2, calls2) => Some (p2, calls1 ++ calls2)
      end
    end
  end.

(** ** etw-v8-provider.h: the public operations *)

Definition Msg (p : V8Provider) (msg : string) : list Call :=
  if IsEnabled (state p) then LogMsg p msg else [].

Definition InitializePlatform (p : V8Provider) := LogInitializePlatform p.
Definition ShutdownPlatform (p : V8Provider) := LogShutdownPlatform p.
Definition InitializeV8 (p : V8Provider) := LogInitializeV8 p.
Definition TearDownV8 (p : V8Provider) := LogTearDownV8 p.
Definition IsolateStart (p : V8Provider) (i : Z) := LogIsolateStart p i.
Definition IsolateStop (p : V8Provider) (i : Z) := LogIsolateStop p i.
Definition SnapshotInitStart (p : V8Provider) (i : Z) := LogSnapshotInitStart p i.
Definition SnapshotInitStop (p : V8Provider) (i : Z) := LogSnapshotInitStop p i.

Definition ParsingStart (p : V8Provider) (i : Z) : list Call :=
  if IsEnabled (state p) then LogParsingStart p i else [].
Definition ParsingStop (p : V8Provider) (i : Z) : list Call :=
  if IsEnabled (state p) then LogParsingStop p i else [].
Definition GenerateUnoptimizedCodeStart (p : V8Provider) (i : Z) : list Call :=
  if IsEnabled (state p) then LogGenerateUnoptimizedCodeStart p i else [].
Definition GenerateUnoptimizedCodeStop (p : V8Provider) (i : Z) : list Call :=
  if IsEnabled (state p) then LogGenerateUnoptimizedCodeStop p i else [].
Definition JitExecuteStart (p : V8Provider) : list Call :=
  if IsEnabled (state p) then LogJitExecuteStart p else [].
Definition JitExecuteStop (p : V8Provider) : list Call :=
  if IsEnabled (state p) then LogJitExecuteStop p else [].
Definition JitFinalizeStart (p : V8Provider) : list Call :=
  if IsEnabled (state p) then LogJitFinalizeStart p else [].
Definition JitFinalizeStop (p : V8Provider) : list Call :=
  if IsEnabled (state p) then LogJitFinalizeStop p else [].

Definition ConcurrentMarkingStart (p : V8Provider) : list Call := [].
Definition ConcurrentMarkingStop (p : V8Provider) : list Call := [].

Definition Deopt (p : V8Provider) (reason kind src fn : string)
    (line column : Z) : list Call :=
  LogDeopt p reason kind src fn line column.

Definition DisableOpt (p : V8Provider) (fn_name reason : string) : list Call :=
  LogDisableOpt p fn_name reason.

(** The process: what lives outside the provider, and the global
    [v8Provider]. *)
Record Process := mkProcess {
  runtime : Runtime;
  v8Provider : V8Provider
}.

(** The zero-initialised global [V8Provider v8Provider{}] before any
    call. *)
Definition initial_process : Process :=
  mkProcess (mkRuntime None [])
    (mkV8Provider (mkProviderState 0 0 0 0 (replicate (Z.to_nat kMaxTraitSize) 0))
       null).

Section V8Registration.

Variable EventRegister : GUID -> Z * Z.

(** [void RegisterEtwProvider()]: the new map is assigned before
    [Register] is called, whatever the pointer held before. *)
Definition RegisterEtwProvider (pr : Process) : option Process :=
  let isolate_script_map' := live ∅ in
  match Register EventRegister kChakraGuid kProviderName
          (runtime pr) (state (v8Provider pr)) with
  | Some (rt, st, _) => Some (mkProcess rt (mkV8Provider st isolate_script_map'))
  | None => None
  end.

End V8Registration.

(** [void UnregisterEtwProvider()]: [delete] of a null pointer is not
    performed; a pointer that is not null is freed and keeps its value;
    freeing through a pointer that was freed before is undefined:
    [None]. *)
Definition UnregisterEtwProvider (pr : Process) : option Process :=
  let '(rt, st) := Unregister (runtime pr) (state (v8Provider pr)) in
  match isolate_script_map (v8Provider pr) with
  | null => Some (mkProcess rt (mkV8Provider st null))
  | live _ => Some (mkProcess rt (mkV8Provider st dangling))
  | dangling => None
  end.

(** *** The signatures of the public operations, in both variants of
    the class *)

Inductive CType :=
| const_char_ptr
| void_ptr
| int_
| const_std_string_ref
| const_JitCodeEvent_ptr.

(** The public member functions of [V8Provider] when [V8_ETW] and
    [V8_TARGET_OS_WIN] are defined. *)
Definition etw_api : list (string * list CType) :=
  [("RegisterEtwProvider", []);
   ("UnregisterEtwProvider", []);
   ("Msg", [const_char_ptr]);
   ("InitializePlatform", []);
   ("ShutdownPlatform", []);
   ("InitializeV8", []);
   ("TearDownV8", []);
   ("IsolateStart", [void_ptr]);
   ("IsolateStop", [void_ptr]);
   ("SnapshotInitStart", [void_ptr]);
   ("SnapshotInitStop", [void_ptr]);
   ("ParsingStart", [void_ptr]);
   ("ParsingStop", [void_ptr]);
   ("GenerateUnoptimizedCodeStart", [void_ptr]);
   ("GenerateUnoptimizedCodeStop", [void_ptr]);
   ("JitExecuteStart", []);
   ("JitExecuteStop", []);
   ("JitFinalizeStart", []);
   ("JitFinalizeStop", []);
   ("ConcurrentMarkingStart", []);
   ("ConcurrentMarkingStop", []);
   ("Deopt", [const_std_string_ref; const_std_string_ref; const_std_string_ref;
              const_std_string_ref; int_; int_]);
   ("DisableOpt", [const_std_string_ref; const_std_string_ref]);
   ("CodeEventHandler", [const_JitCodeEvent_ptr])].

(** The public member functions of [V8Provider] in the other branch of
    the [#if]: the inlined no-ops. *)
Definition no_etw_api : list (string * list CType) :=
  [("RegisterEtwProvider", []);
   ("UnregisterEtwProvider", []);
   ("Msg", [const_char_ptr]);
   ("InitializePlatform", []);
   ("ShutdownPlatform", []);
   ("InitializeV8", []);
   ("TearDownV8", []);
   ("IsolateStart", [void_ptr]);
   ("IsolateStop", [void_ptr]);
   ("SnapshotInitStart", [void_ptr]);
   ("SnapshotInitStop", [void_ptr]);
   ("ParsingStart", [const_char_ptr; int_]);
   ("ParsingStop", []);
   ("GenerateUnoptimizedCodeStart", []);
   ("GenerateUnoptimizedCodeStop", []);
   ("JitExecuteStart", []);
   ("JitExecuteStop", []);
   ("JitFinalizeStart", []);
   ("JitFinalizeStop", []);
   ("ConcurrentMarkingStart", []);
   ("ConcurrentMarkingStop", []);
   ("Deopt", [const_std_string_ref; const_std_string_ref; const_std_string_ref;
              const_std_string_ref; int_; int_]);
   ("DisableOpt", [const_std_string_ref; const_std_string_ref]);
   ("CodeEventHandler", [const_JitCodeEvent_ptr])].

(** The parameter list of an operation in a variant. *)
Fixpoint signature_of (api : list (string * list CType)) (op : string)
    : option (list CType) :=
  match api with
  | [] => None
  | (n, ps) :: rest => if String.eqb n op then Some ps else signature_of rest op
  end.

#[global] Instance CType_eq_dec : EqDecision CType.
Proof. solve_decision. Defined.

(** The operations of the first variant whose parameter list in the
    second variant is another one. *)
Definition differing_operations
    (api1 api2 : list (string * list CType)) : list string :=
  map fst
    (List.filter
       (fun e => negb (bool_decide (signature_of api2 e.1 = Some e.2))) api1).

(** *** Reading a sequence of calls *)

(** A call is a source-load or a method-load event by the identifier of
    its descriptor. *)
Definition is_source_load (c : Call) : bool :=
  id (call_descriptor c) =? id kSourceLoadEvent.

Definition is_method_load (c : Call) : bool :=
  id (call_descriptor c) =? id kMethodLoadEvent.

(** The [Url] argument of a source-load call and the [SourceID]
    argument that precedes it. *)
Definition url_of (c : Call) : option (list Z) :=
  match call_args c with
  | [_; _; _; arg_wstring url] => Some url
  | _ => None
  end.

Definition source_id_of (c : Call) : option Z :=
  match call_args c with
  | arg_uint64 n :: _ => Some n
  | _ => None
  end.

(** The [MethodName] argument of a method-load call. *)
Definition method_name_of (c : Call) : option (list Z) :=
  match call_args c with
  | [_; _; _; _; _; _; _; _; _; arg_wstring w] => Some w
  | _ => None
  end.

(** The cached name of a script of an isolate, if any. *)
Definition cached_name (m : ScriptMapType) (isolate script_id : Z)
    : option (list Z) :=
  default ∅ (m !! isolate) !! script_id.

(** The name a cache miss stores for a script. *)
Definition resolved_name (s : UnboundScript) : list Z :=
  match GetScriptName s with
  | String_value wstr_name => wstr_name
  | other_value => unknown
  end.

(** A JIT code-added notification for the script [script_id] of the
    isolate [iso]. *)
Definition code_added_for (iso script_id : Z) (event : JitCodeEvent) : bool :=
  match code_type event, type event, script event with
  | JIT_CODE, CODE_ADDED, Some s => (isolate event =? iso) && (GetId s =? script_id)
  | _, _, _ => false
  end.

(** A sequence of [Register] calls on one provider, each with its GUID
    and name; the status the last one returned. *)
Fixpoint Registers (EventRegister : GUID -> Z * Z)
    (calls : list (GUID * string)) (rt : Runtime) (st : ProviderState)
    (last_status : option Z) : option (Runtime * ProviderState * option Z) :=
  match calls with
  | [] => Some (rt, st, last_status)
  | (guid, providerName) :: rest =>
    match Register EventRegister guid providerName rt st with
    | None => None
    | Some (rt1, st1, hr) => Registers EventRegister rest rt1 st1 (Some hr)
    end
  end.

(** The number of [EventRegister] calls among the calls made to the
    operating system. *)
Definition registrations (calls : list OsCall) : nat :=
  length (List.filter (fun c => match c with os_EventRegister _ => true | _ => false end)
            calls).

(** The range of the C++ type [int]. *)
Definition is_int (n : Z) : Prop := - 2 ^ 31 <= n < 2 ^ 31.

(** The [ScriptContextID] argument of a source-load call. *)
Definition context_of (c : Call) : option Z :=
  match call_args c with
  | _ :: arg_pointer ctx :: _ => Some ctx
  | _ => None
  end.

(** A source-load call for the script [script_id] of the isolate
    [iso]. *)
Definition source_load_for (iso script_id : Z) (c : Call) : bool :=
  is_source_load c
  && bool_decide (source_id_of c = Some (script_id mod 2 ^ 64))
  && bool_decide (context_of c = Some iso).

(** A notification [LogCodeEvent] acts on. *)
Definition jit_code_added (event : JitCodeEvent) : bool :=
  match code_type event, type event with
  | JIT_CODE, CODE_ADDED => true
  | _, _ => false
  end.

(** A sequence of controller callbacks on one provider, each with its
    [providerState], [level], [matchAnyKeyword] and [allKeyword]. *)
Definition Callbacks (cbs : list (Z * Z * Z * Z)) (st : ProviderState)
    : ProviderState :=
  fold_left (fun s '(providerState, lvl, anyKeyword, allKeyword) =>
               Callback providerState lvl anyKeyword allKeyword s) cbs st.

(** A disabled provider has a zero mask, and [enabled] is zero or one:
    what holds of the zero-initialised state and after every write to
    it. *)
Definition mask_invariant (st : ProviderState) : Prop :=
  (enabled st = 0 \/ enabled st = 1)
  /\ (enabled st = 0 -> level st = 0 /\ keywords st = 0).

(** The values of [uint8_t] and of [uint64_t]. *)
Definition is_uint8 (n : Z) : Prop := 0 <= n < 2 ^ 8.
Definition is_uint64 (n : Z) : Prop := 0 <= n < 2 ^ 64.

(** The script of the notification, if it has one, has an identifier
    in the range of [int], the type [GetId] returns. *)
Definition has_int_script_id (event : JitCodeEvent) : Prop :=
  match script event with
  | Some s => is_int (GetId s)
  | None => True
  end.

End Etw.

(** ** v8-etw-provider.h and v8-etw-provider.cc: the Chakra provider

    The earlier translator, a free function working on a provider object
    reached through the static pointer [etw_provider].  Its base class is
    declared in a version of [etw-provider.h] that is not among the
    sources: the state the base-class constructor leaves and the check
    [IsEventEnabled(level, keywords)] are parameters. *)

Module Chakra.

Import Etw.

Definition chakra_provider_guid : GUID :=
  mkGUID 0x57277741 0x3638 0x4A4B [0xBD; 0xBA; 0x0A; 0xC6; 0xE4; 0x5D; 0xA5; 0x6C].

Definition chakra_provider_name : string := "Microsoft-JScript".

(** [class ChakraEtwProvider : public etw::EtwProvider], with the member
    [script_map] held by value. *)
Record ChakraEtwProvider := mkChakraEtwProvider {
  base : ProviderState;
  script_map : ScriptMapType
}.

(** The statics of the file: the once-flag and the pointer
    [etw_provider], [None] while it is null. *)
Record Statics := mkStatics {
  once_init : bool;
  etw_provider : option ChakraEtwProvider
}.

Definition initial_statics : Statics := mkStatics false None.

(** Modelled from the spec: the constructor
    [EventDescriptor(id, level, keyword, opcode, task)] of
    [etw-metadata.h], an identity of "{id, level, keyword, opcode, task}". *)
Definition EventDescriptor5 (id level keyword opcode task : Z) : EventInfo :=
  mkEventInfo id level opcode task keyword.

(** The conversion of a value to [int64_t]. *)
Definition to_int64 (n : Z) : Z := (n + 2 ^ 63) mod 2 ^ 64 - 2 ^ 63.

(** [void ChakraEtwProvider::SourceLoad(uint64_t source_id,
      void *script_context_id, uint32_t source_flags,
      const std::wstring& url)]; the arguments are converted to the types
    of the parameters. *)
Definition SourceLoad (this : ChakraEtwProvider)
    (source_id script_context_id source_flags : Z) (url : list Z) : list Call :=
  let event_desc := EventDescriptor5 41 kLevelInfo 1 12 2 in
  let event_meta :=
    EventMetadata "SourceLoad"
      [Field "SourceID" kTypeUInt64;
       Field "ScriptContextID" kTypePointer;
       Field "SourceFlags" kTypeUInt32;
       Field "Url" kTypeUnicodeStr] in
  [LogEventData (base this) event_desc event_meta
     [arg_uint64 (source_id mod 2 ^ 64);
      arg_pointer script_context_id;
      arg_uint32 (source_flags mod 2 ^ 32);
      arg_wstring url]].

(** [void ChakraEtwProvider::MethodLoad(...)] *)
Definition MethodLoad (this : ChakraEtwProvider)
    (script_context_id method_start_address method_size method_id
     method_flags method_address_range_id source_id line column : Z)
    (method_name : list Z) : list Call :=
  let event_desc := EventDescriptor5 9 kLevelInfo 1 10 1 in
  let event_meta :=
    EventMetadata "MethodLoad"
      [Field "ScriptContextID" kTypePointer;
       Field "MethodStartAddress" kTypePointer;
       Field "MethodSize" kTypeUInt64;
       Field "MethodID" kTypeUInt32;
       Field "MethodFlags" kTypeUInt16;
       Field "MethodAddressRangeID" kTypeUInt16;
       Field "SourceID" kTypeUInt64;
       Field "Line" kTypeUInt32;
       Field "Column" kTypeUInt32;
       Field "MethodName" kTypeUnicodeStr] in
  [LogEventData (base this) event_desc event_meta
     [arg_pointer script_context_id;
      arg_pointer method_start_address;
      arg_uint64 (method_size mod 2 ^ 64);
      arg_uint32 (method_id mod 2 ^ 32);
      arg_uint16 (method_flags mod 2 ^ 16);
      arg_uint16 (method_address_range_id mod 2 ^ 16);
      arg_uint64 (source_id mod 2 ^ 64);
      arg_uint32 (line mod 2 ^ 32);
      arg_uint32 (column mod 2 ^ 32);
      arg_wstring method_name]].

(** [GetScriptMapForIsolate(void* isolate)]: indexing creates the
    isolate's map when it is missing.  The map returned, and the provider
    with the entry in place. *)
Definition GetScriptMapForIsolate (this : ChakraEtwProvider) (isolate : Z)
    : gmap Z (list Z) * ChakraEtwProvider :=
  let m := default ∅ (script_map this !! isolate) in
  (m, mkChakraEtwProvider (base this) (<[isolate := m]> (script_map this))).

Section Base.

(** The state the base-class constructor [EtwProvider(guid, name)]
    leaves. *)
Variable EtwProvider_new : GUID -> string -> ProviderState.

(** [IsEventEnabled(level, keywords)] of the base class. *)
Variable IsEventEnabled : ProviderState -> Z -> Z -> bool.

(** [ChakraEtwProvider::ChakraEtwProvider()] *)
Definition ChakraEtwProvider_new : ChakraEtwProvider :=
  mkChakraEtwProvider (EtwProvider_new chakra_provider_guid chakra_provider_name) ∅.

(** [void InitializeEtw()]: [CallOnce] runs the assignment on the first
    call only. *)
Definition InitializeEtw (s : Statics) : Statics :=
  if once_init s then s
  else mkStatics true (Some ChakraEtwProvider_new).

(** [void EtwEventHandler(const JitCodeEvent* event)] of
    [unnamed/part_000], the version that keeps the script map: the statics
    afterwards and the [LogEventData] calls made, [None] where
    [etw_provider] is null. *)
Definition EtwEventHandler (s : Statics) (event : JitCodeEvent)
    : option (Statics * list Call) :=
  match etw_provider s with
  | None => None
  | Some provider =>
    if negb (IsEventEnabled (base provider) kLevelInfo 0) then Some (s, [])
    else
      match type event with
      | CODE_ADDED =>
        let method_name := decode_method_name event in
        let '(script_id, provider1, calls1) :=
          match script event with
          | None => (0, provider, [])
          | Some scr =>
            let script_id := GetId scr in
            let '(isolate_map, provider0) :=
              GetScriptMapForIsolate provider (isolate event) in
            match isolate_map !! script_id with
            | None =>
              let script_name := GetScriptName scr in
              let isolate_map' :=
                match script_name with
                | String_value wstr_name => <[script_id := wstr_name]> isolate_map
                | other_value => <[script_id := unknown]> isolate_map
                end in
              let provider' :=
                mkChakraEtwProvider (base provider0)
                  (<[isolate event := isolate_map']> (script_map provider0)) in
              (script_id, provider',
               SourceLoad provider' script_id (isolate event) 0
                 (default [] (isolate_map' !! script_id)))
            | Some _ => (script_id, provider0, [])
            end
          end in
        let script_context := isolate event in
        let start_address := code_start event in
        let length := to_int64 (code_len event) in
        Some (mkStatics (once_init s) (Some provider1),
              calls1 ++ MethodLoad provider1 script_context start_address length
                          0 0 0 script_id 0 0 method_name)
      | _ => Some (s, [])
      end
  end.

End Base.

(** The version of [v8-etw-provider.cc], which does not keep the map. *)
Module Early.

Section Base.

Variable IsEventEnabled : ProviderState -> Z -> Z -> bool.

(** [void EtwEventHandler(const JitCodeEvent* event)]: the script name
    is written to a local buffer and not used; [script_id] is an
    [int64_t]. *)
Definition EtwEventHandler (s : Statics) (event : JitCodeEvent)
    : option (Statics * list Call) :=
  match etw_provider s with
  | None => None
  | Some provider =>
    if negb (IsEventEnabled (base provider) kLevelInfo 0) then Some (s, [])
    else
      match code_type event with
      | BYTE_CODE => Some (s, [])
      | JIT_CODE =>
        match type event with
        | CODE_ADDED =>
          let method_name := decode_method_name event in
          let script_context := isolate event in
          let script_id :=
            match script event with None => 0 | Some scr => GetId scr end in
          let start_address := code_start event in
          let length := to_int64 (code_len event) in
          Some (s, MethodLoad provider script_context start_address length
                     0 0 0 script_id 0 0 method_name)
        | _ => Some (s, [])
        end
      end
  end.

End Base.

End Early.

End Chakra.

Import Win32 Etw.

(** * Sample data: the scenarios of the spec *)

(** Enabled at level Info with keywords [0xF]. *)
Definition scenario_state : ProviderState :=
  mkProviderState 1 1 kLevelInfo 0xF [].

(** Enabled at level Warning, with every keyword. *)
Definition warning_provider : V8Provider :=
  mkV8Provider (mkProviderState 1 1 kLevelWarning (2 ^ 64 - 1) []) (live ∅).

(** Two notifications for script 7 of one isolate, named "foo" and
    "bar". *)
Definition script7 : UnboundScript :=
  mkUnboundScript 7 (String_value (chars "a.js")).

Definition foo_event : JitCodeEvent :=
  mkJitCodeEvent CODE_ADDED JIT_CODE 0x1000 64 (Some script7) (chars "foo") 0xAA00.

Definition bar_event : JitCodeEvent :=
  mkJitCodeEvent CODE_ADDED JIT_CODE 0x2000 32 (Some script7) (chars "bar") 0xAA00.

(** A provider right after its registration, with an empty cache. *)
Definition registered_provider : V8Provider :=
  mkV8Provider scenario_state (live ∅).

(** A notification whose script has a name that is not a string. *)
Definition nameless_script_event : JitCodeEvent :=
  mkJitCodeEvent CODE_ADDED JIT_CODE 0x1000 64
    (Some (mkUnboundScript 3 other_value)) (chars "f") 0xAA00.

(** A notification without a script whose name is "a", a zero byte,
    "b". *)
Definition zero_byte_event : JitCodeEvent :=
  mkJitCodeEvent CODE_ADDED JIT_CODE 0x1000 64 None [97; 0; 98] 0xAA00.

(** A notification whose name is "h", U+00E9, U+20AC and U+1F600 in
    UTF-8: characters of one, two, three and four bytes. *)
Definition wide_name_event : JitCodeEvent :=
  mkJitCodeEvent CODE_ADDED JIT_CODE 0x1000 64 (Some script7)
    [0x68; 0xC3; 0xA9; 0xE2; 0x82; 0xAC; 0xF0; 0x9F; 0x98; 0x80] 0xAA00.

(** An operating system that accepts every registration. *)
Definition os_accepts : GUID -> Z * Z := fun _ => (0, 0x1234).

(** A process in its first registration epoch, with script 7 of the
    isolate [0xAA00] announced. *)
Definition process_after_foo : Process :=
  mkProcess (mkRuntime (Some 0) [os_EventRegister kChakraGuid])
    (mkV8Provider scenario_state (live {[ 0xAA00 := {[ 7 := chars "a.js" ]} ]})).

(** A code-added notification of byte code. *)
Definition byte_code_event : JitCodeEvent :=
  mkJitCodeEvent CODE_ADDED BYTE_CODE 0x3000 16 (Some script7) (chars "baz") 0xAA00.

(** A base class for the Chakra provider: its check is the level and
    keyword test of [IsEnabled(event)], and its constructor leaves the
    scenario state. *)
Definition sample_IsEventEnabled (st : ProviderState) (lvl kw : Z) : bool :=
  IsEnabled_event st (mkEventInfo 0 lvl 0 0 kw).

Definition sample_EtwProvider_new (guid : GUID) (providerName : string)
    : ProviderState := scenario_state.

(** The statics after [InitializeEtw], with an empty script map. *)
Definition sample_statics : Chakra.Statics :=
  Chakra.mkStatics true (Some (Chakra.mkChakraEtwProvider scenario_state ∅)).

(** * Text conversion *)

Ltac ranges :=
  unfold ok2, ok3, ok4, is_cont, is_high, is_low, in_range in *;
  repeat match goal with
  | H : _ && _ = true |- _ => apply andb_true_iff in H; destruct H
  | H : _ || _ = true |- _ => apply orb_true_iff in H; destruct H
  | H : (_ <=? _) = true |- _ => apply Z.leb_le in H
  | H : (_ =? _) = true |- _ => apply Z.eqb_eq in H
  end.

Lemma cp2_bytes b0 b1 : ok2 b0 b1 = true -> utf8_bytes (cp2 b0 b1) = [b0; b1].
Proof.
  intros H. ranges. unfold utf8_bytes, cp2.
  destruct (Z.ltb_spec ((b0 mod 32) * 64 + b1 mod 64) 0x80) as [L|L].
  { exfalso. revert L. Z.div_mod_to_equations. lia. }
  destruct (Z.ltb_spec ((b0 mod 32) * 64 + b1 mod 64) 0x800) as [L1|L1].
  2:{ exfalso. revert L1. Z.div_mod_to_equations. lia. }
  f_equal; [| f_equal]; Z.div_mod_to_equations; lia.
Qed.

Lemma cp3_bytes b0 b1 b2 : ok3 b0 b1 b2 = true -> utf8_bytes (cp3 b0 b1 b2) = [b0; b1; b2].
Proof.
  intros H. ranges; unfold utf8_bytes, cp3.
  all: destruct (Z.ltb_spec ((b0 mod 16) * 4096 + (b1 mod 64) * 64 + b2 mod 64) 0x80) as [L|L];
    [ exfalso; revert L; Z.div_mod_to_equations; lia |].
  all: destruct (Z.ltb_spec ((b0 mod 16) * 4096 + (b1 mod 64) * 64 + b2 mod 64) 0x800) as [L1|L1];
    [ exfalso; revert L1; Z.div_mod_to_equations; lia |].
  all: destruct (Z.ltb_spec ((b0 mod 16) * 4096 + (b1 mod 64) * 64 + b2 mod 64) 0x10000) as [L2|L2];
    [| exfalso; revert L2; Z.div_mod_to_equations; lia ].
  all: f_equal; [| f_equal; [| f_equal]]; Z.div_mod_to_equations; lia.
Qed.

Lemma cp4_bytes b0 b1 b2 b3 :
  ok4 b0 b1 b2 b3 = true -> utf8_bytes (cp4 b0 b1 b2 b3) = [b0; b1; b2; b3].
Proof.
  intros H. ranges; unfold utf8_bytes, cp4.
  all: set (cp := (b0 mod 8) * 262144 + (b1 mod 64) * 4096 + (b2 mod 64) * 64 + b3 mod 64).
  all: assert (Hcp : 0x10000 <= cp) by (subst cp; Z.div_mod_to_equations; lia).
  all: destruct (Z.ltb_spec cp 0x80); [lia |].
  all: destruct (Z.ltb_spec cp 0x800); [lia |].
  all: destruct (Z.ltb_spec cp 0x10000); [lia |].
  all: subst cp; f_equal; [| f_equal; [| f_equal; [| f_equal]]];
    Z.div_mod_to_equations; lia.
Qed.

Lemma cp2_scalar b0 b1 : ok2 b0 b1 = true -> scalar (cp2 b0 b1) /\ cp2 b0 b1 <> 0.
Proof. intros H. ranges. unfold scalar, cp2. Z.div_mod_to_equations. lia. Qed.

Lemma cp3_scalar b0 b1 b2 :
  ok3 b0 b1 b2 = true -> scalar (cp3 b0 b1 b2) /\ cp3 b0 b1 b2 <> 0.
Proof. intros H. ranges; unfold scalar, cp3; Z.div_mod_to_equations; lia. Qed.

Lemma cp4_scalar b0 b1 b2 b3 :
  ok4 b0 b1 b2 b3 = true -> scalar (cp4 b0 b1 b2 b3) /\ 0x10000 <= cp4 b0 b1 b2 b3.
Proof. intros H. ranges; unfold scalar, cp4; Z.div_mod_to_equations; lia. Qed.

Lemma utf16_decode_units cp ws :
  scalar cp -> utf16_decode (utf16_units cp ++ ws) = cp :: utf16_decode ws.
Proof.
  intros Hs. unfold utf16_units, scalar in *.
  destruct (Z.ltb_spec cp 0x10000) as [L | L]; simpl.
  - unfold is_high, is_low, in_range.
    destruct (Z.leb_spec 0xD800 cp), (Z.leb_spec cp 0xDBFF),
      (Z.leb_spec 0xDC00 cp), (Z.leb_spec cp 0xDFFF); simpl; try reflexivity; lia.
  - unfold is_high, is_low, in_range.
    destruct (Z.leb_spec 0xD800 (0xD800 + (cp - 0x10000) / 1024)) as [A | A];
      [| exfalso; revert A; Z.div_mod_to_equations; lia].
    destruct (Z.leb_spec (0xD800 + (cp - 0x10000) / 1024) 0xDBFF) as [B | B];
      [| exfalso; revert B; Z.div_mod_to_equations; lia].
    destruct (Z.leb_spec 0xDC00 (0xDC00 + (cp - 0x10000) mod 1024)) as [C | C];
      [| exfalso; revert C; Z.div_mod_to_equations; lia].
    destruct (Z.leb_spec (0xDC00 + (cp - 0x10000) mod 1024) 0xDFFF) as [D | D];
      [| exfalso; revert D; Z.div_mod_to_equations; lia].
    simpl. f_equal. Z.div_mod_to_equations. lia.
Qed.

Lemma utf16_units_nonzero cp : cp <> 0 -> 0 <= cp -> Forall (fun w => w <> 0) (utf16_units cp).
Proof.
  intros Hn Hp. unfold utf16_units. destruct (Z.ltb_spec cp 0x10000).
  - repeat constructor. exact Hn.
  - repeat constructor; Z.div_mod_to_equations; lia.
Qed.

Lemma utf16_units_length cp : (length (utf16_units cp) <= 2)%nat /\ (cp < 0x10000 -> length (utf16_units cp) = 1%nat).
Proof.
  unfold utf16_units. destruct (Z.ltb_spec cp 0x10000); simpl; split; lia.
Qed.

Lemma not_ascii_2 b0 b1 : ok2 b0 b1 = true -> in_range 0 0x7F b0 = false.
Proof.
  intros H. ranges. unfold in_range.
  destruct (Z.leb_spec b0 0x7F); [lia | apply andb_false_r].
Qed.

Lemma not_ascii_3 b0 b1 b2 :
  ok3 b0 b1 b2 = true -> in_range 0 0x7F b0 = false /\ ok2 b0 b1 = false.
Proof.
  intros H. unfold ok2. ranges; unfold in_range.
  all: destruct (Z.leb_spec b0 0x7F); [lia |].
  all: destruct (Z.leb_spec b0 0xDF); [lia |].
  all: rewrite !andb_false_r; split; reflexivity.
Qed.

Lemma not_ascii_4 b0 b1 b2 b3 :
  ok4 b0 b1 b2 b3 = true ->
  in_range 0 0x7F b0 = false /\ ok2 b0 b1 = false /\ ok3 b0 b1 b2 = false.
Proof.
  intros H. unfold ok2, ok3. ranges; unfold in_range.
  all: destruct (Z.leb_spec b0 0x7F); [lia |].
  all: destruct (Z.leb_spec b0 0xDF); [lia |].
  all: destruct (Z.leb_spec b0 0xEC); [lia |].
  all: destruct (Z.leb_spec b0 0xEF); [lia |].
  all: destruct (Z.eqb_spec b0 0xE0); [lia |].
  all: destruct (Z.eqb_spec b0 0xED); [lia |].
  all: rewrite ?andb_false_r, ?andb_false_l; simpl; auto.
Qed.

Lemma utf8_decode_2 b0 b1 r :
  ok2 b0 b1 = true -> utf8_decode (b0 :: b1 :: r) = cp2 b0 b1 :: utf8_decode r.
Proof.
  intros H. cbn [utf8_decode]. rewrite (not_ascii_2 _ _ H), H. reflexivity.
Qed.

Lemma utf8_decode_3 b0 b1 b2 r :
  ok3 b0 b1 b2 = true ->
  utf8_decode (b0 :: b1 :: b2 :: r) = cp3 b0 b1 b2 :: utf8_decode r.
Proof.
  intros H. destruct (not_ascii_3 _ _ _ H) as [A B].
  cbn [utf8_decode]. rewrite A, B, H. reflexivity.
Qed.

Lemma utf8_decode_4 b0 b1 b2 b3 r :
  ok4 b0 b1 b2 b3 = true ->
  utf8_decode (b0 :: b1 :: b2 :: b3 :: r) = cp4 b0 b1 b2 b3 :: utf8_decode r.
Proof.
  intros H. destruct (not_ascii_4 _ _ _ _ H) as (A & B & C).
  cbn [utf8_decode]. rewrite A, B, C, H. reflexivity.
Qed.

(** Induction over a well-formed byte sequence, one encoded character at a
    time. *)
Lemma well_formed_induction (P : list Z -> Prop) :
  P [] ->
  (forall b r, in_range 0 0x7F b = true -> well_formed r = true -> P r ->
               P (b :: r)) ->
  (forall b0 b1 r, ok2 b0 b1 = true -> well_formed r = true -> P r ->
                   P (b0 :: b1 :: r)) ->
  (forall b0 b1 b2 r, ok3 b0 b1 b2 = true -> well_formed r = true -> P r ->
                      P (b0 :: b1 :: b2 :: r)) ->
  (forall b0 b1 b2 b3 r, ok4 b0 b1 b2 b3 = true -> well_formed r = true -> P r ->
                         P (b0 :: b1 :: b2 :: b3 :: r)) ->
  forall bs, well_formed bs = true -> P bs.
Proof.
  intros H0 H1 H2 H3 H4 bs.
  remember (length bs) as n eqn:Hn.
  revert bs Hn. induction n as [n IH] using lt_wf_ind. intros bs Hn Hwf.
  destruct bs as [| b0 r0]; [exact H0 |].
  cbn [well_formed] in Hwf.
  destruct (in_range 0 0x7F b0) eqn:E1.
  { apply H1; auto. apply (IH (length r0)); [subst n; simpl; lia | reflexivity | exact Hwf]. }
  destruct r0 as [| b1 r1]; [discriminate |].
  destruct (ok2 b0 b1) eqn:E2.
  { apply H2; auto. apply (IH (length r1)); [subst n; simpl; lia | reflexivity | exact Hwf]. }
  destruct r1 as [| b2 r2]; [discriminate |].
  destruct (ok3 b0 b1 b2) eqn:E3.
  { apply H3; auto. apply (IH (length r2)); [subst n; simpl; lia | reflexivity | exact Hwf]. }
  destruct r2 as [| b3 r3]; [discriminate |].
  destruct (ok4 b0 b1 b2 b3) eqn:E4; [| discriminate].
  apply H4; auto. apply (IH (length r3)); [subst n; simpl; lia | reflexivity | exact Hwf].
Qed.

Lemma ascii_facts b :
  in_range 0 0x7F b = true -> scalar b /\ utf8_bytes b = [b] /\ utf16_units b = [b].
Proof.
  intros H. ranges. unfold scalar, utf8_bytes, utf16_units.
  destruct (Z.ltb_spec b 0x80); [| lia].
  destruct (Z.ltb_spec b 0x10000); [| lia].
  repeat split. lia.
Qed.

(** Decoding well-formed UTF-8 to UTF-16 and encoding it again gives the
    bytes back. *)
Lemma utf8_round_trip (bs : list Z) :
  well_formed bs = true -> utf8_of_utf16 (utf16_of_utf8 bs) = bs.
Proof.
  unfold utf8_of_utf16, utf16_of_utf8. revert bs.
  apply (well_formed_induction
           (fun bs => concat (map utf8_bytes
                        (utf16_decode (concat (map utf16_units (utf8_decode bs)))))
                      = bs)).
  - reflexivity.
  - intros b r Hb _ IH. destruct (ascii_facts b Hb) as (Hs & Hb8 & Hb16).
    cbn [utf8_decode]. rewrite Hb. cbn [map concat].
    rewrite utf16_decode_units by exact Hs.
    cbn [map concat]. rewrite Hb8, IH. reflexivity.
  - intros b0 b1 r H _ IH. rewrite utf8_decode_2 by exact H. cbn [map concat].
    rewrite utf16_decode_units by apply (cp2_scalar _ _ H).
    cbn [map concat]. rewrite cp2_bytes by exact H. rewrite IH. reflexivity.
  - intros b0 b1 b2 r H _ IH. rewrite utf8_decode_3 by exact H. cbn [map concat].
    rewrite utf16_decode_units by apply (cp3_scalar _ _ _ H).
    cbn [map concat]. rewrite cp3_bytes by exact H. rewrite IH. reflexivity.
  - intros b0 b1 b2 b3 r H _ IH. rewrite utf8_decode_4 by exact H. cbn [map concat].
    rewrite utf16_decode_units by apply (cp4_scalar _ _ _ _ H).
    cbn [map concat]. rewrite cp4_bytes by exact H. rewrite IH. reflexivity.
Qed.

(** Well-formed UTF-8 without a zero byte decodes to units without a zero
    unit. *)
Lemma utf16_of_utf8_nonzero (bs : list Z) :
  well_formed bs = true ->
  Forall (fun b => b <> 0) bs -> Forall (fun w => w <> 0) (utf16_of_utf8 bs).
Proof.
  unfold utf16_of_utf8. revert bs.
  apply (well_formed_induction
           (fun bs => Forall (fun b => b <> 0) bs ->
                      Forall (fun w => w <> 0)
                        (concat (map utf16_units (utf8_decode bs))))).
  - constructor.
  - intros b r Hb _ IH Hnz. inversion Hnz; subst.
    destruct (ascii_facts b Hb) as (_ & _ & Hb16).
    cbn [utf8_decode]. rewrite Hb. cbn [map concat]. rewrite Hb16.
    constructor; auto.
  - intros b0 b1 r H _ IH Hnz. do 2 (inversion Hnz as [| ? ? _ Hnz']; subst; clear Hnz; rename Hnz' into Hnz).
    rewrite utf8_decode_2 by exact H. cbn [map concat].
    apply Forall_app. split; [| auto].
    destruct (cp2_scalar _ _ H) as [Hs Hn]. apply utf16_units_nonzero; [exact Hn |].
    unfold scalar in Hs. lia.
  - intros b0 b1 b2 r H _ IH Hnz. do 3 (inversion Hnz as [| ? ? _ Hnz']; subst; clear Hnz; rename Hnz' into Hnz).
    rewrite utf8_decode_3 by exact H. cbn [map concat].
    apply Forall_app. split; [| auto].
    destruct (cp3_scalar _ _ _ H) as [Hs Hn]. apply utf16_units_nonzero; [exact Hn |].
    unfold scalar in Hs. lia.
  - intros b0 b1 b2 b3 r H _ IH Hnz. do 4 (inversion Hnz as [| ? ? _ Hnz']; subst; clear Hnz; rename Hnz' into Hnz).
    rewrite utf8_decode_4 by exact H. cbn [map concat].
    apply Forall_app. split; [| auto].
    destruct (cp4_scalar _ _ _ _ H) as [Hs Hn]. apply utf16_units_nonzero; lia.
Qed.

Lemma cp2_small b0 b1 : cp2 b0 b1 < 0x10000.
Proof. unfold cp2. Z.div_mod_to_equations. lia. Qed.

Lemma cp3_small b0 b1 b2 : cp3 b0 b1 b2 < 0x10000.
Proof. unfold cp3. Z.div_mod_to_equations. lia. Qed.

Lemma utf16_of_utf8_cons cp cps :
  length (concat (map utf16_units (cp :: cps)))
  = (length (utf16_units cp) + length (concat (map utf16_units cps)))%nat.
Proof. cbn [map concat]. apply length_app. Qed.

(** The decoder never writes more units than it reads bytes. *)
Lemma utf16_of_utf8_length (bs : list Z) :
  (length (utf16_of_utf8 bs) <= length bs)%nat.
Proof.
  unfold utf16_of_utf8.
  remember (length bs) as n eqn:Hn. revert bs Hn.
  induction n as [n IH] using lt_wf_ind. intros bs Hn.
  assert (IH' : forall r, (length r < n)%nat ->
            (length (concat (map utf16_units (utf8_decode r))) <= length r)%nat)
    by (intros r Hr; exact (IH (length r) Hr r eq_refl)).
  clear IH.
  assert (Hrep : length (utf16_units replacement) = 1%nat) by reflexivity.
  destruct bs as [| b0 r0]; [subst n; simpl; lia |].
  cbn [utf8_decode].
  destruct (in_range 0 0x7F b0) eqn:E1.
  { destruct (ascii_facts b0 E1) as (_ & _ & Hu).
    rewrite utf16_of_utf8_cons, Hu. specialize (IH' r0). subst n. simpl in *. lia. }
  destruct r0 as [| b1 r1]; [subst n; simpl; lia |].
  destruct (ok2 b0 b1).
  { rewrite utf16_of_utf8_cons.
    rewrite (proj2 (utf16_units_length _) (cp2_small b0 b1)).
    specialize (IH' r1). subst n. simpl in *. lia. }
  destruct r1 as [| b2 r2].
  { rewrite utf16_of_utf8_cons, Hrep. specialize (IH' [b1]). subst n. simpl in *. lia. }
  destruct (ok3 b0 b1 b2).
  { rewrite utf16_of_utf8_cons.
    rewrite (proj2 (utf16_units_length _) (cp3_small b0 b1 b2)).
    specialize (IH' r2). subst n. simpl in *. lia. }
  destruct r2 as [| b3 r3].
  { rewrite utf16_of_utf8_cons, Hrep. specialize (IH' [b1; b2]). subst n. simpl in *. lia. }
  destruct (ok4 b0 b1 b2 b3).
  { rewrite utf16_of_utf8_cons.
    pose proof (proj1 (utf16_units_length (cp4 b0 b1 b2 b3))).
    specialize (IH' r3). subst n. simpl in *. lia. }
  rewrite utf16_of_utf8_cons, Hrep.
  specialize (IH' (b1 :: b2 :: b3 :: r3)). subst n. simpl in *. lia.
Qed.

(** * The enable check and the controller callback *)


Example scenario_eligible :
  IsEnabled_event scenario_state (mkEventInfo 1 kLevelInfo 0 0 0x2) = true.
Proof. reflexivity. Qed.

Example scenario_too_verbose :
  IsEnabled_event scenario_state (mkEventInfo 1 kLevelVerbose 0 0 0x2) = false.
Proof. reflexivity. Qed.

Example scenario_after_disable :
  IsEnabled_event (Callback 0 0 0 0 scenario_state)
    (mkEventInfo 1 kLevelInfo 0 0 0x2) = false.
Proof. reflexivity. Qed.

Lemma IsEnabled_true (st : ProviderState) :
  IsEnabled st = true <-> enabled st <> 0.
Proof.
  unfold IsEnabled. destruct (Z.eqb_spec (enabled st) 0) as [E | E].
  - split; [discriminate | congruence].
  - split; auto.
Qed.

(** C2: [IsEnabled(event)] is true exactly when the provider is enabled,
    the level of the event is at most the level of the state, and the
    keyword of the event is zero or shares a bit with the keywords of the
    state; a provider that is not enabled passes no event. *)
Theorem IsEnabled_event_iff (st : ProviderState) (event : EventInfo) :
  (IsEnabled_event st event = true <->
   enabled st <> 0
   /\ ev_level event <= level st
   /\ (ev_keywords event = 0
       \/ Z.land (ev_keywords event) (keywords st) <> 0))
  /\ (enabled st = 0 -> IsEnabled_event st event = false).
Proof.
  unfold IsEnabled_event. split.
  - destruct (Z.eqb_spec (enabled st) 0) as [E | E].
    { split; [discriminate | intros [? _]; contradiction]. }
    destruct (Z.gtb_spec (ev_level event) (level st)) as [L | L].
    { split; [discriminate | intros (_ & ? & _); lia]. }
    rewrite orb_true_iff, negb_true_iff.
    rewrite Z.eqb_eq, Z.eqb_neq. split.
    + intros K. repeat split; [assumption | lia | exact K].
    + intros (_ & _ & K). exact K.
  - intros E. rewrite E. reflexivity.
Qed.

(** C3: the callback with [providerState = 1] sets [enabled] and stores
    the level and the match-any keyword as they are; with
    [providerState = 0] it clears [enabled], the level and the keywords, so
    that no event passes the check afterwards; any other value leaves
    the state as it was. *)
Theorem Callback_cases (st : ProviderState)
    (providerState lvl matchAnyKeyword allKeyword : Z) :
  (providerState = 1 ->
   let st' := Callback providerState lvl matchAnyKeyword allKeyword st in
   enabled st' = 1 /\ IsEnabled st' = true
   /\ level st' = lvl /\ keywords st' = matchAnyKeyword
   /\ regHandle st' = regHandle st
   /\ provider_trait st' = provider_trait st)
  /\ (providerState = 0 ->
      let st' := Callback providerState lvl matchAnyKeyword allKeyword st in
      enabled st' = 0 /\ level st' = 0 /\ keywords st' = 0
      /\ IsEnabled st' = false
      /\ forall event : EventInfo, IsEnabled_event st' event = false)
  /\ (providerState <> 0 -> providerState <> 1 ->
      Callback providerState lvl matchAnyKeyword allKeyword st = st).
Proof.
  repeat split; try (subst providerState; reflexivity).
  intros H0 H1. unfold Callback.
  destruct providerState as [| q | q]; [congruence | | reflexivity].
  destruct q; [reflexivity | reflexivity | congruence].
Qed.

(** The all-bits-set values a session passes when it states no level or
    keyword are stored like any other value. *)
Example Callback_all_bits_set :
  let st' := Callback 1 255 (2 ^ 64 - 1) 0 scenario_state in
  level st' = 255 /\ keywords st' = 2 ^ 64 - 1.
Proof. split; reflexivity. Qed.

(** [Unregister] without a handle does nothing; with one it tells the
    operating system and clears the handle and the mask. *)
Lemma Unregister_cases (rt : Runtime) (st : ProviderState) :
  (regHandle st = 0 -> Unregister rt st = (rt, st))
  /\ (regHandle st <> 0 ->
      let '(rt', st') := Unregister rt st in
      os_calls rt' = os_calls rt ++ [os_EventUnregister (regHandle st)]
      /\ regHandle st' = 0 /\ enabled st' = 0 /\ level st' = 0
      /\ keywords st' = 0 /\ IsEnabled st' = false).
Proof.
  unfold Unregister. split; intros H.
  - rewrite H. reflexivity.
  - destruct (Z.eqb_spec (regHandle st) 0); [contradiction |]. repeat split.
Qed.

(** * The code-event translator *)





Example scenario_foo_bar :
  (fun r => match r with
            | Some (_, calls) =>
              (map is_source_load calls, map is_method_load calls,
               map source_id_of calls, map url_of calls, map method_name_of calls)
            | None => ([], [], [], [], [])
            end) (LogCodeEvents registered_provider [foo_event; bar_event])
  = ([true; false; false], [false; true; true],
     [Some 7; None; None],
     [Some (chars "a.js"); None; None],
     [None; Some (chars "foo" ++ [0]); Some (chars "bar" ++ [0])]).
Proof. vm_compute. reflexivity. Qed.

Lemma code_added_for_inv (iso sid : Z) (event : JitCodeEvent) :
  code_added_for iso sid event = true ->
  code_type event = JIT_CODE /\ type event = CODE_ADDED
  /\ isolate event = iso
  /\ exists s, script event = Some s /\ GetId s = sid.
Proof.
  unfold code_added_for.
  destruct (code_type event); [discriminate |].
  destruct (type event); try discriminate.
  destruct (script event) as [s |]; [| discriminate].
  rewrite andb_true_iff, !Z.eqb_eq. intros [Hi Hs]. eauto 6.
Qed.


Lemma LogCodeEvent_miss (p : V8Provider) (m : ScriptMapType)
    (event : JitCodeEvent) (s : UnboundScript) :
  isolate_script_map p = live m ->
  code_type event = JIT_CODE -> type event = CODE_ADDED ->
  script event = Some s ->
  cached_name m (isolate event) (GetId s) = None ->
  LogCodeEvent p event =
    Some (mkV8Provider (state p)
            (live (<[isolate event :=
                       <[GetId s := resolved_name s]>
                         (default ∅ (m !! isolate event))]> m)),
          [source_load_call (state p) (GetId s) (isolate event) (resolved_name s);
           method_load_call (state p) (isolate event) event (GetId s)
             (decode_method_name event)]).
Proof.
  intros Hm Hc Ht Hs Hn. unfold LogCodeEvent, cached_name, resolved_name in *.
  rewrite Hc, Ht, Hs, Hm, Hn.
  destruct (GetScriptName s); rewrite lookup_insert_eq; reflexivity.
Qed.

Lemma LogCodeEvent_hit (p : V8Provider) (m : ScriptMapType)
    (event : JitCodeEvent) (s : UnboundScript) (w : list Z) :
  isolate_script_map p = live m ->
  code_type event = JIT_CODE -> type event = CODE_ADDED ->
  script event = Some s ->
  cached_name m (isolate event) (GetId s) = Some w ->
  LogCodeEvent p event =
    Some (mkV8Provider (state p)
            (live (<[isolate event := default ∅ (m !! isolate event)]> m)),
          [method_load_call (state p) (isolate event) event (GetId s)
             (decode_method_name event)]).
Proof.
  intros Hm Hc Ht Hs Hn. unfold LogCodeEvent, cached_name in *.
  rewrite Hc, Ht, Hs, Hm, Hn. reflexivity.
Qed.

Lemma cached_name_after_miss (m : ScriptMapType) (iso sid : Z) (w : list Z) :
  cached_name (<[iso := <[sid := w]> (default ∅ (m !! iso))]> m) iso sid = Some w.
Proof. unfold cached_name. rewrite lookup_insert_eq. simpl. apply lookup_insert_eq. Qed.

Lemma cached_name_after_hit (m : ScriptMapType) (iso sid : Z) :
  cached_name (<[iso := default ∅ (m !! iso)]> m) iso sid = cached_name m iso sid.
Proof. unfold cached_name. rewrite lookup_insert_eq. reflexivity. Qed.

Lemma method_load_not_source_load (c : Call) :
  is_method_load c = true -> is_source_load c = false.
Proof.
  unfold is_method_load, is_source_load. rewrite Z.eqb_eq. intros ->. reflexivity.
Qed.

Lemma filter_method_loads (calls : list Call) :
  Forall (fun c => is_method_load c = true) calls ->
  List.filter is_source_load calls = []
  /\ List.filter is_method_load calls = calls.
Proof.
  induction 1 as [| c calls Hc _ [IH1 IH2]]; [split; reflexivity |].
  simpl. rewrite (method_load_not_source_load c Hc), Hc, IH1, IH2.
  split; reflexivity.
Qed.

(** Once a script is cached, further notifications for it make
    method-load calls only, one each, and the entry stays as it is. *)
Lemma LogCodeEvents_cached (iso sid : Z) (w : list Z)
    (events : list JitCodeEvent) :
  forall (p : V8Provider) (m : ScriptMapType),
  isolate_script_map p = live m ->
  cached_name m iso sid = Some w ->
  Forall (fun e => code_added_for iso sid e = true) events ->
  exists p' m' calls,
    LogCodeEvents p events = Some (p', calls)
    /\ isolate_script_map p' = live m'
    /\ cached_name m' iso sid = Some w
    /\ Forall (fun c => is_method_load c = true) calls
    /\ length calls = length events.
Proof.
  induction events as [| e rest IH]; intros p m Hm Hw Hall.
  - exists p, m, []. repeat split; auto.
  - inversion Hall as [| ? ? He Hrest]; subst.
    destruct (code_added_for_inv _ _ _ He) as (Hc & Ht & Hi & s & Hs & Hid).
    subst iso sid.
    simpl. rewrite (LogCodeEvent_hit p m e s w Hm Hc Ht Hs Hw).
    destruct (IH (mkV8Provider (state p)
                    (live (<[isolate e := default ∅ (m !! isolate e)]> m))) _
                eq_refl (eq_trans (cached_name_after_hit _ _ _) Hw) Hrest)
      as (p' & m' & calls & Hrun & Hm' & Hw' & Hml & Hlen).
    rewrite Hrun. exists p', m', (method_load_call (state p) (isolate e) e (GetId s)
                                   (decode_method_name e) :: calls).
    repeat split; auto. simpl. congruence.
Qed.

(** C1: N code-added notifications for one script of one isolate, the
    first of them meeting a cache without that script, make one
    source-load call followed by N method-load calls: the source-load call
    is the first call of all, it carries the script's identifier, and no
    other one follows. *)
Theorem one_source_load_per_script (p : V8Provider) (m : ScriptMapType)
    (iso sid : Z) (events : list JitCodeEvent) :
  isolate_script_map p = live m ->
  cached_name m iso sid = None ->
  events <> [] ->
  Forall (fun e => code_added_for iso sid e = true) events ->
  exists p' source_load method_loads,
    LogCodeEvents p events = Some (p', source_load :: method_loads)
    /\ is_source_load source_load = true
    /\ source_id_of source_load = Some (sid mod 2 ^ 64)
    /\ Forall (fun c => is_method_load c = true) method_loads
    /\ length method_loads = length events
    /\ length (List.filter is_source_load (source_load :: method_loads)) = 1%nat
    /\ length (List.filter is_method_load (source_load :: method_loads))
       = length events.
Proof.
  intros Hm Hn Hne Hall.
  destruct events as [| e rest]; [congruence |].
  inversion Hall as [| ? ? He Hrest]; subst.
  destruct (code_added_for_inv _ _ _ He) as (Hc & Ht & Hi & s & Hs & Hid).
  subst iso sid.
  simpl LogCodeEvents. rewrite (LogCodeEvent_miss p m e s Hm Hc Ht Hs Hn).
  destruct (LogCodeEvents_cached (isolate e) (GetId s) (resolved_name s) rest
              (mkV8Provider (state p)
                 (live (<[isolate e :=
                            <[GetId s := resolved_name s]>
                              (default ∅ (m !! isolate e))]> m))) _
              eq_refl (cached_name_after_miss _ _ _ _) Hrest)
    as (p' & m' & calls & Hrun & _ & _ & Hml & Hlen).
  rewrite Hrun.
  set (ml := method_load_call (state p) (isolate e) e (GetId s)
               (decode_method_name e)).
  assert (Hall' : Forall (fun c => is_method_load c = true) (ml :: calls))
    by (constructor; [reflexivity | exact Hml]).
  destruct (filter_method_loads _ Hall') as [F1 F2].
  eexists p', _, (ml :: calls). split; [reflexivity |].
  split; [reflexivity |]. split; [reflexivity |]. split; [exact Hall' |].
  split; [simpl; congruence |].
  split.
  - change (List.filter is_source_load (?c :: ?l))
      with (c :: List.filter is_source_load l) at 1.
    rewrite F1. reflexivity.
  - change (length (List.filter is_method_load (ml :: calls)) = length (e :: rest)).
    rewrite F2. simpl. congruence.
Qed.

(** The two notifications "foo" and "bar" on an empty cache. *)
Lemma one_source_load_per_script_witness :
  exists p' source_load method_loads,
    LogCodeEvents registered_provider [foo_event; bar_event]
      = Some (p', source_load :: method_loads)
    /\ is_source_load source_load = true
    /\ source_id_of source_load = Some (7 mod 2 ^ 64)
    /\ Forall (fun c => is_method_load c = true) method_loads
    /\ length method_loads = length [foo_event; bar_event]
    /\ length (List.filter is_source_load (source_load :: method_loads)) = 1%nat
    /\ length (List.filter is_method_load (source_load :: method_loads))
       = length [foo_event; bar_event].
Proof.
  apply (one_source_load_per_script registered_provider ∅ 0xAA00 7).
  - reflexivity.
  - reflexivity.
  - discriminate.
  - repeat constructor.
Defined.

Example unknown_units : unknown = [91; 117; 110; 107; 110; 111; 119; 110; 93].
Proof. reflexivity. Qed.

(** C5: a notification whose script has a name that is not a string
    is handled without failure, every source-load call it makes has as
    its name the nine UTF-16 units of the text "[unknown]", written out
    here unit by unit, and on a cache miss it makes that call. *)
Theorem unknown_script_name (p : V8Provider) (m : ScriptMapType)
    (event : JitCodeEvent) (s : UnboundScript) :
  isolate_script_map p = live m ->
  script event = Some s ->
  IsString (GetScriptName s) = false ->
  exists p' calls,
    LogCodeEvent p event = Some (p', calls)
    /\ Forall (fun c => is_source_load c = true ->
                       url_of c
                       = Some [91; 117; 110; 107; 110; 111; 119; 110; 93])
         calls
    /\ [91; 117; 110; 107; 110; 111; 119; 110; 93]
       = map (fun c => Z.of_N (Ascii.N_of_ascii c))
           (String.list_ascii_of_string "[unknown]")
    /\ (code_type event = JIT_CODE -> type event = CODE_ADDED ->
        cached_name m (isolate event) (GetId s) = None ->
        exists method_load,
          calls = [source_load_call (state p) (GetId s) (isolate event)
                     [91; 117; 110; 107; 110; 111; 119; 110; 93];
                   method_load]
          /\ url_of (source_load_call (state p) (GetId s) (isolate event)
                       [91; 117; 110; 107; 110; 111; 119; 110; 93])
             = Some [91; 117; 110; 107; 110; 111; 119; 110; 93]
          /\ is_method_load method_load = true).
Proof.
  intros Hm Hs Hname.
  assert (Hres : resolved_name s = [91; 117; 110; 107; 110; 111; 119; 110; 93]).
  { unfold resolved_name. destruct (GetScriptName s); [discriminate |].
    exact unknown_units. }
  destruct (code_type event) eqn:Hc.
  { exists p, []. unfold LogCodeEvent. rewrite Hc.
    split; [reflexivity |]. split; [constructor |].
    split; [reflexivity | discriminate]. }
  destruct (type event) eqn:Ht;
    try (exists p, []; unfold LogCodeEvent; rewrite Hc, Ht;
         split; [reflexivity |]; split; [constructor |];
         split; [reflexivity | discriminate]).
  destruct (cached_name m (isolate event) (GetId s)) as [w |] eqn:Hn.
  - rewrite (LogCodeEvent_hit p m event s w Hm Hc Ht Hs Hn).
    eexists _, _. split; [reflexivity |]. split; [| split].
    + repeat constructor. discriminate.
    + reflexivity.
    + discriminate.
  - rewrite (LogCodeEvent_miss p m event s Hm Hc Ht Hs Hn), Hres.
    eexists _, _. split; [reflexivity |]. split; [| split].
    + repeat constructor. discriminate.
    + reflexivity.
    + intros _ _ _. eexists. repeat split.
Qed.

(** A script without a string name on an empty cache. *)
Lemma unknown_script_name_witness :
  exists p' calls,
    LogCodeEvent registered_provider nameless_script_event = Some (p', calls)
    /\ Forall (fun c => is_source_load c = true ->
                       url_of c
                       = Some [91; 117; 110; 107; 110; 111; 119; 110; 93])
         calls
    /\ [91; 117; 110; 107; 110; 111; 119; 110; 93]
       = map (fun c => Z.of_N (Ascii.N_of_ascii c))
           (String.list_ascii_of_string "[unknown]")
    /\ (code_type nameless_script_event = JIT_CODE ->
        type nameless_script_event = CODE_ADDED ->
        cached_name ∅ (isolate nameless_script_event) 3 = None ->
        exists method_load,
          calls = [source_load_call (state registered_provider) 3
                     (isolate nameless_script_event)
                     [91; 117; 110; 107; 110; 111; 119; 110; 93];
                   method_load]
          /\ url_of (source_load_call (state registered_provider) 3
                       (isolate nameless_script_event)
                       [91; 117; 110; 107; 110; 111; 119; 110; 93])
             = Some [91; 117; 110; 107; 110; 111; 119; 110; 93]
          /\ is_method_load method_load = true).
Proof.
  apply (unknown_script_name registered_provider ∅ nameless_script_event
           (mkUnboundScript 3 other_value)); reflexivity.
Defined.

(** With the provider enabled at level Info or above the handler is
    [LogCodeEvent]. *)
Lemma CodeEventHandler_open (p : V8Provider) (event : JitCodeEvent) :
  IsEnabled (state p) = true ->
  kLevelInfo <= level (state p) ->
  CodeEventHandler p event = LogCodeEvent p event.
Proof.
  intros He Hl. unfold CodeEventHandler, Level. rewrite He. simpl.
  destruct (Z.ltb_spec (level (state p)) kLevelInfo); [lia | reflexivity].
Qed.

(** C9: with the provider enabled at a level below Info the handler
    returns at once: no call is made and the provider, its cache
    included, is as before. *)
Theorem CodeEventHandler_below_Info (p : V8Provider) (event : JitCodeEvent) :
  IsEnabled (state p) = true ->
  level (state p) < kLevelInfo ->
  CodeEventHandler p event = Some (p, []).
Proof.
  intros He Hl. unfold CodeEventHandler, Level. rewrite He. simpl.
  destruct (Z.ltb_spec (level (state p)) kLevelInfo); [reflexivity | lia].
Qed.


(** The handler at level Warning. *)
Lemma CodeEventHandler_below_Info_witness :
  CodeEventHandler warning_provider foo_event = Some (warning_provider, []).
Proof.
  apply (CodeEventHandler_below_Info warning_provider foo_event).
  - reflexivity.
  - reflexivity.
Defined.

(** * The method name *)

(** The buffer [LogCodeEvent] passes on: the decoded units, then zeros up
    to one unit more than the name has bytes. *)
Lemma decode_method_name_eq (event : JitCodeEvent) :
  decode_method_name event
  = utf16_of_utf8 (name event)
    ++ replicate (S (length (name event)) - length (utf16_of_utf8 (name event))) 0.
Proof.
  unfold decode_method_name, MultiByteToWideChar.
  replace (Z.to_nat (Z.of_nat (length (name event)) + 1))
    with (S (length (name event))) by lia.
  pose proof (utf16_of_utf8_length (name event)) as Hlen.
  case_bool_decide as Hnil.
  - rewrite Hnil. reflexivity.
  - rewrite length_replicate.
    destruct (Nat.ltb_spec (S (length (name event)))
                (length (utf16_of_utf8 (name event)))); [lia |].
    cbn [snd]. rewrite drop_replicate. reflexivity.
Qed.

Lemma c_str_app_zero (ws : list Z) (k : nat) :
  Forall (fun w => w <> 0) ws -> c_str (ws ++ replicate (S k) 0) = ws.
Proof.
  induction 1 as [| w ws Hw _ IH]; [reflexivity |].
  simpl. destruct (Z.eqb_spec w 0); [contradiction |]. f_equal. exact IH.
Qed.

(** Every JIT code-added notification ends in a method-load call that
    carries the decoded name. *)
Lemma LogCodeEvent_method_load (p : V8Provider) (m : ScriptMapType)
    (event : JitCodeEvent) :
  isolate_script_map p = live m ->
  code_type event = JIT_CODE -> type event = CODE_ADDED ->
  exists p' calls method_load,
    LogCodeEvent p event = Some (p', calls)
    /\ last calls = Some method_load
    /\ is_method_load method_load = true
    /\ method_name_of method_load = Some (decode_method_name event).
Proof.
  intros Hm Hc Ht.
  destruct (script event) as [s |] eqn:Hs.
  - destruct (cached_name m (isolate event) (GetId s)) as [w |] eqn:Hn.
    + rewrite (LogCodeEvent_hit p m event s w Hm Hc Ht Hs Hn).
      eexists _, _, _. repeat split.
    + rewrite (LogCodeEvent_miss p m event s Hm Hc Ht Hs Hn).
      eexists _, _, _. repeat split.
  - unfold LogCodeEvent. rewrite Hc, Ht, Hs. eexists _, _, _. repeat split.
Qed.

Example wide_name_decoded :
  decode_method_name wide_name_event
  = [0x68; 0xE9; 0x20AC; 0xD83D; 0xDE00; 0; 0; 0; 0; 0; 0].
Proof. vm_compute. reflexivity. Qed.

Example ill_formed_name_replaced :
  utf16_of_utf8 [0x61; 0xFF; 0xC3] = [0x61; 0xFFFD; 0xFFFD].
Proof. vm_compute. reflexivity. Qed.

(** C7, as amended: for a JIT code-added notification whose name is
    well-formed UTF-8 without a zero byte, the [MethodName] argument of the
    method-load call has one unit more than the name has bytes and ends
    with a zero unit, and the text before its first zero unit, encoded as
    UTF-8 again, is the name. *)
Theorem method_name_round_trip (p : V8Provider) (m : ScriptMapType)
    (event : JitCodeEvent) :
  isolate_script_map p = live m ->
  code_type event = JIT_CODE -> type event = CODE_ADDED ->
  well_formed (name event) = true ->
  Forall (fun b => b <> 0) (name event) ->
  exists p' calls method_load w,
    LogCodeEvent p event = Some (p', calls)
    /\ last calls = Some method_load
    /\ is_method_load method_load = true
    /\ method_name_of method_load = Some w
    /\ length w = S (length (name event))
    /\ last w = Some 0
    /\ utf8_of_utf16 (c_str w) = name event.
Proof.
  intros Hm Hc Ht Hwf Hnz.
  destruct (LogCodeEvent_method_load p m event Hm Hc Ht)
    as (p' & calls & ml & Hrun & Hlast & Hml & Hname).
  exists p', calls, ml, (decode_method_name event).
  repeat (split; [assumption |]).
  pose proof (utf16_of_utf8_length (name event)) as Hlen.
  rewrite decode_method_name_eq.
  replace (S (length (name event)) - length (utf16_of_utf8 (name event)))%nat
    with (S (length (name event) - length (utf16_of_utf8 (name event)))) by lia.
  split; [| split].
  - rewrite length_app, length_replicate. lia.
  - rewrite replicate_S_end, app_assoc. apply last_snoc.
  - rewrite c_str_app_zero by (apply utf16_of_utf8_nonzero; assumption).
    apply utf8_round_trip. exact Hwf.
Qed.

(** A name with characters of one to four bytes. *)
Lemma method_name_round_trip_witness :
  exists p' calls method_load w,
    LogCodeEvent registered_provider wide_name_event = Some (p', calls)
    /\ last calls = Some method_load
    /\ is_method_load method_load = true
    /\ method_name_of method_load = Some w
    /\ length w = S (length (name wide_name_event))
    /\ last w = Some 0
    /\ utf8_of_utf16 (c_str w) = name wide_name_event.
Proof.
  apply (method_name_round_trip registered_provider ∅ wide_name_event).
  - reflexivity.
  - reflexivity.
  - reflexivity.
  - reflexivity.
  - repeat constructor; discriminate.
Defined.

(** C7, as stated, fails for a name with a zero byte: the name "a", zero,
    "b" is well-formed UTF-8 of three bytes; the method-load call carries
    the four units "a", zero, "b", zero, and neither the text before the
    first zero unit nor the four units encode to the three bytes. *)
Lemma method_name_zero_byte_lost :
  well_formed (name zero_byte_event) = true
  /\ exists p' method_load w,
       LogCodeEvent registered_provider zero_byte_event
         = Some (p', [method_load])
       /\ is_method_load method_load = true
       /\ method_name_of method_load = Some w
       /\ w = [97; 0; 98; 0]
       /\ utf8_of_utf16 (c_str w) = [97]
       /\ utf8_of_utf16 (c_str w) <> name zero_byte_event
       /\ utf8_of_utf16 w <> name zero_byte_event.
Proof.
  split; [reflexivity |].
  eexists _, _, _. split; [reflexivity |].
  split; [reflexivity |]. split; [reflexivity |].
  split; [vm_compute; reflexivity |].
  split; [vm_compute; reflexivity |].
  split; vm_compute; discriminate.
Qed.

(** * Registration *)

Section RegistrationFacts.

Variable EventRegister : GUID -> Z * Z.

(** The first call registers with the operating system. *)
Lemma Register_first (guid : GUID) (providerName : string)
    (rt : Runtime) (st : ProviderState) :
  Register_hr rt = None ->
  strlen providerName + 1 <= kMaxTraitSize - 2 ->
  exists rt' st',
    Register EventRegister guid providerName rt st
      = Some (rt', st', (EventRegister guid).1)
    /\ Register_hr rt' = Some (EventRegister guid).1
    /\ os_calls rt' = os_calls rt ++ [os_EventRegister guid]
    /\ regHandle st' = (EventRegister guid).2
    /\ enabled st' = enabled st /\ level st' = level st
    /\ keywords st' = keywords st.
Proof.
  intros Hhr Hfit. unfold Register. rewrite Hhr.
  destruct (EventRegister guid) as [status handle]. simpl.
  destruct (Z.leb_spec (strlen providerName + 1) (kMaxTraitSize - 2)); [| lia].
  eexists _, _. repeat split.
Qed.

(** A later call does not: the runtime is as it was, the status is the
    one of the first call, and only the trait of the state is written. *)
Lemma Register_again (guid : GUID) (providerName : string)
    (rt : Runtime) (st : ProviderState) (hr : Z) :
  Register_hr rt = Some hr ->
  strlen providerName + 1 <= kMaxTraitSize - 2 ->
  exists st',
    Register EventRegister guid providerName rt st = Some (rt, st', hr)
    /\ regHandle st' = regHandle st
    /\ enabled st' = enabled st /\ level st' = level st
    /\ keywords st' = keywords st.
Proof.
  intros Hhr Hfit. unfold Register. rewrite Hhr. simpl.
  destruct (Z.leb_spec (strlen providerName + 1) (kMaxTraitSize - 2)); [| lia].
  eexists. repeat split.
Qed.

Lemma Registers_again (calls : list (GUID * string)) :
  forall (rt : Runtime) (st : ProviderState) (hr : Z),
  Register_hr rt = Some hr ->
  Forall (fun c => strlen c.2 + 1 <= kMaxTraitSize - 2) calls ->
  exists st',
    Registers EventRegister calls rt st (Some hr) = Some (rt, st', Some hr)
    /\ regHandle st' = regHandle st.
Proof.
  induction calls as [| [guid providerName] rest IH]; intros rt st hr Hhr Hall.
  - exists st. split; reflexivity.
  - inversion Hall as [| ? ? Hfit Hrest]; subst. simpl in Hfit.
    destruct (Register_again guid providerName rt st hr Hhr Hfit)
      as (st1 & Hreg & Hh & _).
    destruct (IH rt st1 hr Hhr Hrest) as (st' & Hrun & Hh').
    exists st'. simpl. rewrite Hreg, Hrun. split; [reflexivity | congruence].
Qed.

(** C6: however many times [Register] is called in a process, the
    operating system sees one [EventRegister] call, that of the first
    [Register], every call returns the status of that one, and the handle
    of the state is the one it stored. *)
Theorem Register_latched (guid : GUID) (providerName : string)
    (rest : list (GUID * string)) (st : ProviderState) :
  Forall (fun c => strlen c.2 + 1 <= kMaxTraitSize - 2)
    ((guid, providerName) :: rest) ->
  exists rt' st',
    Registers EventRegister ((guid, providerName) :: rest)
      (mkRuntime None []) st None
      = Some (rt', st', Some (EventRegister guid).1)
    /\ os_calls rt' = [os_EventRegister guid]
    /\ registrations (os_calls rt') = 1%nat
    /\ regHandle st' = (EventRegister guid).2.
Proof.
  intros Hall. inversion Hall as [| ? ? Hfit Hrest]; subst. simpl in Hfit.
  destruct (Register_first guid providerName (mkRuntime None []) st eq_refl Hfit)
    as (rt1 & st1 & Hreg & Hhr & Hos & Hh & _).
  destruct (Registers_again rest rt1 st1 _ Hhr Hrest) as (st' & Hrun & Hh').
  exists rt1, st'. simpl Registers. rewrite Hreg, Hrun.
  repeat split.
  - exact Hos.
  - rewrite Hos. reflexivity.
  - congruence.
Qed.

(** [RegisterEtwProvider] always returns: the provider name fits the
    trait. *)
Lemma RegisterEtwProvider_total (pr : Process) :
  exists rt' st',
    RegisterEtwProvider EventRegister pr
      = Some (mkProcess rt' (mkV8Provider st' (live ∅)))
    /\ (forall hr, Register_hr (runtime pr) = Some hr -> rt' = runtime pr).
Proof.
  unfold RegisterEtwProvider.
  destruct (Register_hr (runtime pr)) as [hr |] eqn:Hhr.
  - destruct (Register_again kChakraGuid kProviderName (runtime pr)
                (state (v8Provider pr)) hr Hhr) as (st' & Hreg & _);
      [vm_compute; discriminate |].
    rewrite Hreg. exists (runtime pr), st'. split; [reflexivity | reflexivity].
  - destruct (Register_first kChakraGuid kProviderName (runtime pr)
                (state (v8Provider pr)) Hhr) as (rt' & st' & Hreg & _);
      [vm_compute; discriminate |].
    rewrite Hreg. exists rt', st'. split; [reflexivity | discriminate].
Qed.

(** C10: whatever the cache holds, [RegisterEtwProvider] leaves an empty
    one, while a process that has registered before makes no further call
    to the operating system; a script that was cached, and so made no
    source-load call, makes one again on its next notification. *)
Theorem RegisterEtwProvider_new_cache (pr : Process) (m : ScriptMapType)
    (event : JitCodeEvent) (s : UnboundScript) (w : list Z) :
  isolate_script_map (v8Provider pr) = live m ->
  code_type event = JIT_CODE -> type event = CODE_ADDED ->
  script event = Some s ->
  cached_name m (isolate event) (GetId s) = Some w ->
  (exists p1 method_load,
     LogCodeEvent (v8Provider pr) event = Some (p1, [method_load])
     /\ is_method_load method_load = true)
  /\ exists pr' p2 source_load method_load,
       RegisterEtwProvider EventRegister pr = Some pr'
       /\ isolate_script_map (v8Provider pr') = live ∅
       /\ (forall hr, Register_hr (runtime pr) = Some hr ->
           runtime pr' = runtime pr)
       /\ LogCodeEvent (v8Provider pr') event
          = Some (p2, [source_load; method_load])
       /\ is_source_load source_load = true
       /\ source_id_of source_load = Some (GetId s mod 2 ^ 64)
       /\ is_method_load method_load = true.
Proof.
  intros Hm Hc Ht Hs Hw. split.
  - rewrite (LogCodeEvent_hit _ m event s w Hm Hc Ht Hs Hw).
    eexists _, _. split; reflexivity.
  - destruct (RegisterEtwProvider_total pr) as (rt' & st' & Hreg & Hsame).
    rewrite Hreg.
    eexists _, _, _, _. split; [reflexivity |].
    split; [reflexivity |]. split; [exact Hsame |].
    split.
    + apply (LogCodeEvent_miss _ ∅ event s); auto.
    + repeat split.
Qed.

End RegistrationFacts.


(** Two registrations in a fresh process. *)
Lemma Register_latched_witness :
  exists rt' st',
    Registers os_accepts
      [(kChakraGuid, kProviderName); (kProviderGuid, kProviderName)]
      (mkRuntime None []) (state (v8Provider initial_process)) None
      = Some (rt', st', Some (os_accepts kChakraGuid).1)
    /\ os_calls rt' = [os_EventRegister kChakraGuid]
    /\ registrations (os_calls rt') = 1%nat
    /\ regHandle st' = (os_accepts kChakraGuid).2.
Proof.
  apply (Register_latched os_accepts kChakraGuid kProviderName
           [(kProviderGuid, kProviderName)]).
  repeat constructor; vm_compute; discriminate.
Defined.

Example Register_writes_trait :
  (fun r => match r with
            | Some (_, st, _) => take 8 (provider_trait st)
            | None => []
            end)
    (Register os_accepts kChakraGuid kProviderName (mkRuntime None [])
       (state (v8Provider initial_process)))
  = [8; 0; 86; 56; 46; 106; 115; 0].
Proof. vm_compute. reflexivity. Qed.


(** A second registration epoch after script 7 was announced. *)
Lemma RegisterEtwProvider_new_cache_witness :
  (exists p1 method_load,
     LogCodeEvent (v8Provider process_after_foo) bar_event
       = Some (p1, [method_load])
     /\ is_method_load method_load = true)
  /\ exists pr' p2 source_load method_load,
       RegisterEtwProvider os_accepts process_after_foo = Some pr'
       /\ isolate_script_map (v8Provider pr') = live ∅
       /\ (forall hr, Register_hr (runtime process_after_foo) = Some hr ->
           runtime pr' = runtime process_after_foo)
       /\ LogCodeEvent (v8Provider pr') bar_event
          = Some (p2, [source_load; method_load])
       /\ is_source_load source_load = true
       /\ source_id_of source_load = Some (GetId script7 mod 2 ^ 64)
       /\ is_method_load method_load = true.
Proof.
  apply (RegisterEtwProvider_new_cache os_accepts process_after_foo
           {[ 0xAA00 := {[ 7 := chars "a.js" ]} ]} bar_event script7 (chars "a.js"));
    reflexivity.
Defined.

(** * The event catalogue *)

(** Every call site other than [LogDisableOpt] passes arguments that
    match the metadata of its event. *)
Lemma catalogue_matches (p : V8Provider) (msg reason kind src fn : string)
    (isolate line column : Z) :
  Forall (fun c => call_matches c = true)
    (LogMsg p msg ++ LogInitializePlatform p ++ LogShutdownPlatform p
     ++ LogInitializeV8 p ++ LogTearDownV8 p
     ++ LogIsolateStart p isolate ++ LogIsolateStop p isolate
     ++ LogSnapshotInitStart p isolate ++ LogSnapshotInitStop p isolate
     ++ LogParsingStart p isolate ++ LogParsingStop p isolate
     ++ LogGenerateUnoptimizedCodeStart p isolate
     ++ LogGenerateUnoptimizedCodeStop p isolate
     ++ LogJitExecuteStart p ++ LogJitExecuteStop p
     ++ LogJitFinalizeStart p ++ LogJitFinalizeStop p
     ++ LogDeopt p reason kind src fn line column).
Proof. repeat constructor. Qed.

Lemma code_event_calls_match (st : ProviderState) (event : JitCodeEvent)
    (script_id script_context : Z) (url method_name : list Z) :
  call_matches (source_load_call st script_id script_context url) = true
  /\ call_matches
       (method_load_call st script_context event script_id method_name) = true.
Proof. split; reflexivity. Qed.

(** C4, at the call site that breaks it: [LogDisableOpt] declares an
    event without fields and passes two arguments, both [Field] objects,
    so its call does not match its metadata; [fn_name] and [reason] are
    not among the arguments. *)
Theorem LogDisableOpt_mismatch (p : V8Provider) (fn_name reason : string) :
  exists c,
    DisableOpt p fn_name reason = [c]
    /\ fields (call_metadata c) = []
    /\ call_args c = [arg_field (Field "fn" kTypeAnsiStr);
                      arg_field (Field "reason" kTypeAnsiStr)]
    /\ call_matches c = false.
Proof. eexists. repeat split. Qed.

(** * The two variants of the class *)

(** C8, where it fails: four operations have another parameter list in
    the variant without ETW; all the others have the same one. *)
Theorem no_etw_signatures_differ :
  differing_operations etw_api no_etw_api
    = ["ParsingStart"; "ParsingStop";
       "GenerateUnoptimizedCodeStart"; "GenerateUnoptimizedCodeStop"]
  /\ signature_of etw_api "ParsingStart" = Some [void_ptr]
  /\ signature_of no_etw_api "ParsingStart" = Some [const_char_ptr; int_]
  /\ signature_of etw_api "ParsingStop" = Some [void_ptr]
  /\ signature_of no_etw_api "ParsingStop" = Some []
  /\ signature_of etw_api "GenerateUnoptimizedCodeStart" = Some [void_ptr]
  /\ signature_of no_etw_api "GenerateUnoptimizedCodeStart" = Some []
  /\ signature_of etw_api "GenerateUnoptimizedCodeStop" = Some [void_ptr]
  /\ signature_of no_etw_api "GenerateUnoptimizedCodeStop" = Some [].
Proof. vm_compute. repeat split. Qed.

(** * Further properties of the provider state *)

(** X1: [Unregister] is idempotent: whatever the state, a second call
    right after the first changes nothing and tells the operating system
    nothing more. *)
Theorem Unregister_twice (rt : Runtime) (st : ProviderState) :
  Unregister (Unregister rt st).1 (Unregister rt st).2 = Unregister rt st
  /\ (length (os_calls (Unregister rt st).1) <= S (length (os_calls rt)))%nat.
Proof.
  unfold Unregister. destruct (Z.eqb_spec (regHandle st) 0) as [E | E]; simpl.
  - rewrite E. simpl. split; [reflexivity | lia].
  - split; [reflexivity | rewrite length_app; simpl; lia].
Qed.

Section MoreRegistrationFacts.

Variable EventRegister : GUID -> Z * Z.

(** X2: a provider that was registered and then unregistered is not
    registered again by [Register]: no [EventRegister] call is made, the
    handle stays zero, the provider stays disabled, and the status
    returned is still that of the first registration. *)
Theorem Register_after_Unregister (guid : GUID) (providerName : string)
    (rt : Runtime) (st : ProviderState) (hr : Z) :
  Register_hr rt = Some hr ->
  regHandle st <> 0 ->
  strlen providerName + 1 <= kMaxTraitSize - 2 ->
  exists st',
    Register EventRegister guid providerName
      (Unregister rt st).1 (Unregister rt st).2
      = Some ((Unregister rt st).1, st', hr)
    /\ regHandle st' = 0
    /\ IsEnabled st' = false
    /\ registrations (os_calls (Unregister rt st).1) = registrations (os_calls rt).
Proof.
  intros Hhr Hh Hfit.
  destruct (Unregister_cases rt st) as [_ Hu]. specialize (Hu Hh).
  destruct (Unregister rt st) as [rt1 st1] eqn:EU. simpl.
  destruct Hu as (Hos & Hr & He & _).
  assert (Hhr1 : Register_hr rt1 = Some hr).
  { unfold Unregister in EU. destruct (regHandle st =? 0); inversion EU; subst;
      [exact Hhr | exact Hhr]. }
  destruct (Register_again EventRegister guid providerName rt1 st1 hr Hhr1 Hfit)
    as (st' & Hreg & Hh' & He' & _).
  exists st'. split; [exact Hreg |]. split; [congruence |].
  split.
  - unfold IsEnabled. rewrite He', He. reflexivity.
  - unfold registrations. rewrite Hos, List.filter_app. simpl.
    rewrite length_app. simpl. lia.
Qed.

Lemma chars_length (s : string) : length (chars s) = String.length s.
Proof.
  unfold chars. rewrite length_map.
  induction s as [| c s IH]; simpl; [reflexivity | rewrite IH; reflexivity].
Qed.

(** X3: [Register] with a name that fits writes the trait as the total
    size in two bytes, low byte first, the name and a zero byte; the rest
    of the buffer, its length and the enable mask are as before. *)
Theorem Register_trait (guid : GUID) (providerName : string)
    (rt : Runtime) (st : ProviderState) :
  strlen providerName + 1 <= kMaxTraitSize - 2 ->
  length (provider_trait st) = Z.to_nat kMaxTraitSize ->
  exists rt' st' hr,
    Register EventRegister guid providerName rt st = Some (rt', st', hr)
    /\ provider_trait st'
       = [strlen providerName + 3; 0] ++ chars providerName ++ [0]
         ++ drop (Z.to_nat (strlen providerName + 3)) (provider_trait st)
    /\ length (provider_trait st') = Z.to_nat kMaxTraitSize
    /\ enabled st' = enabled st /\ level st' = level st
    /\ keywords st' = keywords st.
Proof.
  intros Hfit Hlen.
  assert (Hn : 0 <= strlen providerName) by (unfold strlen; lia).
  assert (Hstore : forall buf, length buf = Z.to_nat kMaxTraitSize ->
            store 2 (chars providerName ++ [0])
              (store 0 [(2 + strlen providerName + 1) mod 65536 mod 256;
                        (2 + strlen providerName + 1) mod 65536 / 256] buf)
            = [strlen providerName + 3; 0] ++ chars providerName ++ [0]
              ++ drop (Z.to_nat (strlen providerName + 3)) buf).
  { intros buf Hb. unfold store. simpl take. simpl app at 1.
    rewrite (Z.mod_small (2 + strlen providerName + 1) 65536)
      by (unfold kMaxTraitSize in Hfit; lia).
    rewrite (Z.mod_small (2 + strlen providerName + 1) 256)
      by (unfold kMaxTraitSize in Hfit; lia).
    rewrite (Z.div_small (2 + strlen providerName + 1) 256)
      by (unfold kMaxTraitSize in Hfit; lia).
    replace (2 + strlen providerName + 1) with (strlen providerName + 3) by lia.
    change (take 2 (?a :: ?b :: ?l)) with [a; b].
    simpl app. do 2 f_equal. rewrite <- !app_assoc. f_equal. simpl app. f_equal.
    rewrite length_app, chars_length. simpl length.
    change (drop (2 + ?k) (?a :: ?b :: ?l)) with (drop k l).
    rewrite drop_drop. f_equal. unfold strlen. lia. }
  assert (Hlen' : forall buf, length buf = Z.to_nat kMaxTraitSize ->
            length ([strlen providerName + 3; 0] ++ chars providerName ++ [0]
                    ++ drop (Z.to_nat (strlen providerName + 3)) buf)
            = Z.to_nat kMaxTraitSize).
  { intros buf Hb. rewrite !length_app, chars_length, length_drop, Hb.
    unfold strlen, kMaxTraitSize in *. simpl length. lia. }
  unfold Register. destruct (Register_hr rt) as [hr |].
  - simpl. destruct (Z.leb_spec (strlen providerName + 1) (kMaxTraitSize - 2)); [| lia].
    eexists _, _, _. split; [reflexivity |].
    cbn [provider_trait enabled level keywords regHandle].
    rewrite (Hstore _ Hlen). split; [reflexivity |].
    split; [exact (Hlen' _ Hlen) | repeat split].
  - destruct (EventRegister guid) as [status handle]. simpl.
    destruct (Z.leb_spec (strlen providerName + 1) (kMaxTraitSize - 2)); [| lia].
    eexists _, _, _. split; [reflexivity |].
    cbn [provider_trait enabled level keywords regHandle].
    rewrite (Hstore _ Hlen). split; [reflexivity |].
    split; [exact (Hlen' _ Hlen) | repeat split].
Qed.

End MoreRegistrationFacts.

(** The provider name in the zeroed trait of the fresh process. *)
Lemma Register_trait_witness :
  exists rt' st' hr,
    Register os_accepts kChakraGuid kProviderName (mkRuntime None [])
      (state (v8Provider initial_process)) = Some (rt', st', hr)
    /\ provider_trait st'
       = [strlen kProviderName + 3; 0] ++ chars kProviderName ++ [0]
         ++ drop (Z.to_nat (strlen kProviderName + 3))
              (provider_trait (state (v8Provider initial_process)))
    /\ length (provider_trait st') = Z.to_nat kMaxTraitSize
    /\ enabled st' = enabled (state (v8Provider initial_process))
    /\ level st' = level (state (v8Provider initial_process))
    /\ keywords st' = keywords (state (v8Provider initial_process)).
Proof.
  apply (Register_trait os_accepts kChakraGuid kProviderName).
  - vm_compute. discriminate.
  - reflexivity.
Defined.

(** A provider registered once, with handle [0x1234]. *)
Lemma Register_after_Unregister_witness :
  exists st',
    Register os_accepts kChakraGuid kProviderName
      (Unregister (runtime process_after_foo) scenario_state).1
      (Unregister (runtime process_after_foo) scenario_state).2
      = Some ((Unregister (runtime process_after_foo) scenario_state).1, st', 0)
    /\ regHandle st' = 0
    /\ IsEnabled st' = false
    /\ registrations (os_calls (Unregister (runtime process_after_foo)
                                  scenario_state).1)
       = registrations (os_calls (runtime process_after_foo)).
Proof.
  apply (Register_after_Unregister os_accepts kChakraGuid kProviderName
           (runtime process_after_foo) scenario_state 0).
  - reflexivity.
  - vm_compute. discriminate.
  - vm_compute. discriminate.
Defined.

Lemma Callback_keeps_registration (providerState lvl anyKeyword allKeyword : Z)
    (st : ProviderState) :
  regHandle (Callback providerState lvl anyKeyword allKeyword st) = regHandle st
  /\ provider_trait (Callback providerState lvl anyKeyword allKeyword st)
     = provider_trait st.
Proof.
  unfold Callback. destruct providerState as [| q | q]; [split; reflexivity | |
    split; reflexivity].
  destruct q; split; reflexivity.
Qed.

Lemma Callbacks_handle_trait (cbs : list (Z * Z * Z * Z)) (st : ProviderState) :
  regHandle (Callbacks cbs st) = regHandle st
  /\ provider_trait (Callbacks cbs st) = provider_trait st.
Proof.
  revert st. induction cbs as [| [[[ps l] k] a] rest IH]; intros st.
  - split; reflexivity.
  - change (Callbacks (((ps, l, k, a)) :: rest) st)
      with (Callbacks rest (Callback ps l k a st)).
    destruct (IH (Callback ps l k a st)) as [H1 H2].
    destruct (Callback_keeps_registration ps l k a st) as [H3 H4].
    split; congruence.
Qed.

(** X4: no sequence of controller callbacks touches the registration
    handle or the provider trait, and it leaves [enabled] at zero, at one,
    or as it was. *)
Theorem Callbacks_keep_registration (cbs : list (Z * Z * Z * Z))
    (st : ProviderState) :
  regHandle (Callbacks cbs st) = regHandle st
  /\ provider_trait (Callbacks cbs st) = provider_trait st
  /\ (enabled (Callbacks cbs st) = 0 \/ enabled (Callbacks cbs st) = 1
      \/ enabled (Callbacks cbs st) = enabled st).
Proof.
  revert st. induction cbs as [| [[[ps l] k] a] rest IH]; intros st.
  - repeat split. right. right. reflexivity.
  - change (Callbacks (((ps, l, k, a)) :: rest) st)
      with (Callbacks rest (Callback ps l k a st)).
    destruct (IH (Callback ps l k a st)) as (H1 & H2 & H3).
    destruct (Callback_keeps_registration ps l k a st) as [H4 H5].
    split; [congruence |]. split; [congruence |].
    destruct H3 as [H3 | [H3 | H3]]; [left; exact H3 | right; left; exact H3 |].
    rewrite H3. unfold Callback. destruct ps as [| q | q]; [left; reflexivity | |
      right; right; reflexivity].
    destruct q; [right; right; reflexivity | right; right; reflexivity |
      right; left; reflexivity].
Qed.

(** X5: the last callback that enables or disables decides the state:
    whatever callbacks came before it, the state is the one that callback
    alone would have left. *)
Theorem Callbacks_last_wins (cbs : list (Z * Z * Z * Z))
    (providerState lvl anyKeyword allKeyword : Z) (st : ProviderState) :
  providerState = 0 \/ providerState = 1 ->
  Callbacks (cbs ++ [(providerState, lvl, anyKeyword, allKeyword)]) st
  = Callback providerState lvl anyKeyword allKeyword st.
Proof.
  intros Hps. unfold Callbacks. rewrite fold_left_app. simpl.
  fold (Callbacks cbs st).
  destruct (Callbacks_handle_trait cbs st) as [H1 H2].
  destruct Hps as [-> | ->]; unfold Callback, UpdateState; rewrite H1, H2;
    reflexivity.
Qed.

(** Enable at Verbose, an ignored value, then disable. *)
Lemma Callbacks_last_wins_witness :
  Callbacks ([(1, 5, 0xF, 0); (7, 3, 1, 1)] ++ [(0, 2, 9, 0)]) scenario_state
  = Callback 0 2 9 0 scenario_state.
Proof.
  apply (Callbacks_last_wins [(1, 5, 0xF, 0); (7, 3, 1, 1)] 0 2 9 0 scenario_state).
  left. reflexivity.
Defined.

Section MaskInvariant.

Variable EventRegister : GUID -> Z * Z.

(** X6: the zero-initialised state has a zero mask while disabled, and
    the callback, [Unregister] and [Register] keep it so: a provider that
    is not enabled never holds a level or a keyword. *)
Theorem mask_invariant_kept (st : ProviderState) :
  mask_invariant (state (v8Provider initial_process))
  /\ (mask_invariant st ->
      (forall providerState lvl anyKeyword allKeyword,
          mask_invariant (Callback providerState lvl anyKeyword allKeyword st))
      /\ (forall rt, mask_invariant (Unregister rt st).2)
      /\ (forall guid providerName rt rt' st' hr,
             Register EventRegister guid providerName rt st = Some (rt', st', hr) ->
             mask_invariant st')).
Proof.
  split; [split; [left; reflexivity | intros _; split; reflexivity] |].
  intros Hinv. split; [| split].
  - intros ps l k a. unfold Callback.
    destruct ps as [| q | q];
      [split; [left; reflexivity | intros _; split; reflexivity] | | exact Hinv].
    destruct q; try exact Hinv.
    split; [right; reflexivity | discriminate].
  - intros rt. unfold Unregister. destruct (regHandle st =? 0); [exact Hinv |].
    split; [left; reflexivity | intros _; split; reflexivity].
  - intros guid providerName rt rt' st' hr. unfold Register.
    destruct (Register_hr rt); [| destruct (EventRegister guid)]; simpl;
      destruct (strlen providerName + 1 <=? kMaxTraitSize - 2); try discriminate;
      intros H; inversion H; subst; exact Hinv.
Qed.

End MaskInvariant.

(** X7: on a state with that invariant the handler's gate is the level
    test alone: at level Info or above the provider is enabled and the
    notification reaches [LogCodeEvent]; below it nothing is done. *)
Theorem CodeEventHandler_level_gate (p : V8Provider) (event : JitCodeEvent) :
  mask_invariant (state p) ->
  CodeEventHandler p event
  = if level (state p) <? kLevelInfo then Some (p, []) else LogCodeEvent p event.
Proof.
  intros [_ Hz]. unfold CodeEventHandler, IsEnabled, Level.
  destruct (Z.eqb_spec (enabled (state p)) 0) as [E | E]; simpl.
  - destruct (Hz E) as [-> _]. reflexivity.
  - reflexivity.
Qed.

(** The gate on the enabled scenario state. *)
Lemma CodeEventHandler_level_gate_witness :
  CodeEventHandler registered_provider foo_event
  = if level (state registered_provider) <? kLevelInfo
    then Some (registered_provider, [])
    else LogCodeEvent registered_provider foo_event.
Proof.
  apply (CodeEventHandler_level_gate registered_provider foo_event).
  split; [right; reflexivity | discriminate].
Defined.

(** * Further properties of the enable check *)

Lemma IsEnabled_event_true (st : ProviderState) (event : EventInfo) :
  IsEnabled_event st event = true <->
  enabled st <> 0
  /\ ev_level event <= level st
  /\ (ev_keywords event = 0
      \/ Z.land (ev_keywords event) (keywords st) <> 0).
Proof.
  unfold IsEnabled_event.
  destruct (Z.eqb_spec (enabled st) 0) as [E | E].
  { split; [discriminate | intros [? _]; contradiction]. }
  destruct (Z.gtb_spec (ev_level event) (level st)) as [L | L].
  { split; [discriminate | intros (_ & ? & _); lia]. }
  rewrite orb_true_iff, negb_true_iff, Z.eqb_eq, Z.eqb_neq.
  split; [intros K; repeat split; [assumption | lia | exact K] |
          intros (_ & _ & K); exact K].
Qed.

(** X8: the check is monotone in the session: an event that passes
    still passes when the level is raised and keywords are added. *)
Theorem IsEnabled_event_monotone (st st' : ProviderState) (event : EventInfo) :
  enabled st' <> 0 ->
  level st <= level st' ->
  Z.land (keywords st) (keywords st') = keywords st ->
  IsEnabled_event st event = true ->
  IsEnabled_event st' event = true.
Proof.
  intros He Hl Hk H.
  apply (proj1 (IsEnabled_event_true st event)) in H.
  destruct H as (_ & Hlev & Hkw).
  apply (proj2 (IsEnabled_event_true st' event)).
  split; [exact He |]. split; [lia |].
  destruct Hkw as [Hz | Hnz]; [left; exact Hz | right].
  intros Hzero. apply Hnz.
  rewrite <- Hk, (Z.land_comm (keywords st)), Z.land_assoc, Hzero.
  apply Z.land_0_l.
Qed.

(** From level Info with keywords [0xF] to level Verbose with keywords
    [0xFF]. *)
Lemma IsEnabled_event_monotone_witness :
  IsEnabled_event (mkProviderState 1 1 kLevelVerbose 0xFF [])
    (mkEventInfo 1 kLevelInfo 0 0 0x2) = true.
Proof.
  apply (IsEnabled_event_monotone scenario_state
           (mkProviderState 1 1 kLevelVerbose 0xFF [])
           (mkEventInfo 1 kLevelInfo 0 0 0x2)).
  - discriminate.
  - vm_compute. discriminate.
  - reflexivity.
  - reflexivity.
Defined.

(** X9: a session that states no level and no keyword, which the
    controller passes as all bits set, lets every event through. *)
Theorem IsEnabled_event_unrestricted (st : ProviderState) (event : EventInfo) :
  is_uint8 (ev_level event) ->
  is_uint64 (ev_keywords event) ->
  IsEnabled_event (Callback 1 (2 ^ 8 - 1) (2 ^ 64 - 1) 0 st) event = true.
Proof.
  unfold is_uint8, is_uint64. intros Hl Hk.
  apply (proj2 (IsEnabled_event_true _ event)).
  simpl enabled. simpl level. simpl keywords.
  split; [discriminate |]. split; [lia |].
  destruct (Z.eq_dec (ev_keywords event) 0) as [E | E]; [left; exact E | right].
  change (2 ^ 64 - 1) with (Z.ones 64).
  rewrite Z.land_ones by lia. rewrite Z.mod_small by lia. exact E.
Qed.

(** The method-load event on an unrestricted session. *)
Lemma IsEnabled_event_unrestricted_witness :
  IsEnabled_event (Callback 1 (2 ^ 8 - 1) (2 ^ 64 - 1) 0 scenario_state)
    kMethodLoadEvent = true.
Proof.
  apply (IsEnabled_event_unrestricted scenario_state kMethodLoadEvent).
  - vm_compute. split; [discriminate | reflexivity].
  - vm_compute. split; [discriminate | reflexivity].
Defined.

(** * Further properties of the code-event translator *)

Lemma cached_name_insert (m : ScriptMapType) (iso' sid' : Z) (w' : list Z)
    (iso sid : Z) :
  cached_name (<[iso' := <[sid' := w']> (default ∅ (m !! iso'))]> m) iso sid
  = if bool_decide (iso = iso' /\ sid = sid') then Some w'
    else cached_name m iso sid.
Proof.
  unfold cached_name. destruct (decide (iso = iso')) as [-> | Hi].
  - rewrite lookup_insert_eq. simpl.
    destruct (decide (sid = sid')) as [-> | Hs].
    + rewrite lookup_insert_eq, bool_decide_eq_true_2 by auto. reflexivity.
    + rewrite lookup_insert_ne by auto.
      rewrite bool_decide_eq_false_2 by (intros [_ ?]; contradiction). reflexivity.
  - rewrite lookup_insert_ne by auto.
    rewrite bool_decide_eq_false_2 by (intros [? _]; contradiction). reflexivity.
Qed.

Lemma cached_name_touch (m : ScriptMapType) (iso' iso sid : Z) :
  cached_name (<[iso' := default ∅ (m !! iso')]> m) iso sid = cached_name m iso sid.
Proof.
  destruct (decide (iso = iso')) as [-> | Hi].
  - apply cached_name_after_hit.
  - unfold cached_name. rewrite lookup_insert_ne by auto. reflexivity.
Qed.

(** The four ways a notification is handled when the map is there. *)
Lemma LogCodeEvent_step (p : V8Provider) (m : ScriptMapType)
    (event : JitCodeEvent) :
  isolate_script_map p = live m ->
  (jit_code_added event = false /\ LogCodeEvent p event = Some (p, []))
  \/ (jit_code_added event = true /\ script event = None
      /\ LogCodeEvent p event
         = Some (p, [method_load_call (state p) (isolate event) event 0
                       (decode_method_name event)]))
  \/ (exists s w,
        jit_code_added event = true /\ script event = Some s
        /\ cached_name m (isolate event) (GetId s) = Some w
        /\ LogCodeEvent p event
           = Some (mkV8Provider (state p)
                     (live (<[isolate event := default ∅ (m !! isolate event)]> m)),
                   [method_load_call (state p) (isolate event) event (GetId s)
                      (decode_method_name event)]))
  \/ (exists s,
        jit_code_added event = true /\ script event = Some s
        /\ cached_name m (isolate event) (GetId s) = None
        /\ LogCodeEvent p event
           = Some (mkV8Provider (state p)
                     (live (<[isolate event :=
                                <[GetId s := resolved_name s]>
                                  (default ∅ (m !! isolate event))]> m)),
                   [source_load_call (state p) (GetId s) (isolate event)
                      (resolved_name s);
                    method_load_call (state p) (isolate event) event (GetId s)
                      (decode_method_name event)])).
Proof.
  intros Hm. unfold jit_code_added.
  destruct (code_type event) eqn:Hc.
  { left. split; [reflexivity |]. unfold LogCodeEvent. rewrite Hc. reflexivity. }
  destruct (type event) eqn:Ht;
    try (left; split; [reflexivity |]; unfold LogCodeEvent; rewrite Hc, Ht;
         reflexivity).
  destruct (script event) as [s |] eqn:Hs.
  - destruct (cached_name m (isolate event) (GetId s)) as [w |] eqn:Hn.
    + right. right. left. exists s, w. repeat split; auto.
      apply (LogCodeEvent_hit p m event s w); auto.
    + right. right. right. exists s. repeat split; auto.
      apply (LogCodeEvent_miss p m event s); auto.
  - right. left. repeat split. unfold LogCodeEvent. rewrite Hc, Ht, Hs. reflexivity.
Qed.

(** X10: with the map in place every sequence of notifications is
    handled, the enable state is not written, and the cache only grows:
    an entry that is there stays, with the name it has. *)
Theorem LogCodeEvents_cache_grows (events : list JitCodeEvent) :
  forall (p : V8Provider) (m : ScriptMapType),
  isolate_script_map p = live m ->
  exists p' m' calls,
    LogCodeEvents p events = Some (p', calls)
    /\ state p' = state p
    /\ isolate_script_map p' = live m'
    /\ forall iso sid w,
         cached_name m iso sid = Some w -> cached_name m' iso sid = Some w.
Proof.
  induction events as [| e rest IH]; intros p m Hm.
  - exists p, m, []. repeat split; auto.
  - simpl.
    destruct (LogCodeEvent_step p m e Hm)
      as [(_ & Hr) | [(_ & _ & Hr) | [(s & w & _ & _ & _ & Hr) | (s & _ & _ & Hn & Hr)]]];
      rewrite Hr.
    + destruct (IH p m Hm) as (p' & m' & calls & Hrun & Hst & Hm' & Hk).
      rewrite Hrun. exists p', m', calls. auto.
    + destruct (IH p m Hm) as (p' & m' & calls & Hrun & Hst & Hm' & Hk).
      rewrite Hrun. eexists p', m', _. auto.
    + destruct (IH (mkV8Provider (state p)
                      (live (<[isolate e := default ∅ (m !! isolate e)]> m))) _ eq_refl)
        as (p' & m' & calls & Hrun & Hst & Hm' & Hk).
      rewrite Hrun. eexists p', m', _. repeat split; auto.
      intros iso sid w' Hw. apply Hk. rewrite cached_name_touch. exact Hw.
    + destruct (IH (mkV8Provider (state p)
                      (live (<[isolate e :=
                                 <[GetId s := resolved_name s]>
                                   (default ∅ (m !! isolate e))]> m))) _ eq_refl)
        as (p' & m' & calls & Hrun & Hst & Hm' & Hk).
      rewrite Hrun. eexists p', m', _. repeat split; auto.
      intros iso sid w' Hw. apply Hk. rewrite cached_name_insert.
      case_bool_decide as Hd; [| exact Hw].
      destruct Hd as [-> ->]. congruence.
Qed.

(** Notifications of every kind on the provider with the empty cache. *)
Lemma LogCodeEvents_cache_grows_witness :
  exists p' m' calls,
    LogCodeEvents registered_provider
      [foo_event; nameless_script_event; zero_byte_event; bar_event]
      = Some (p', calls)
    /\ state p' = state registered_provider
    /\ isolate_script_map p' = live m'
    /\ forall iso sid w,
         cached_name ∅ iso sid = Some w -> cached_name m' iso sid = Some w.
Proof.
  apply (LogCodeEvents_cache_grows
           [foo_event; nameless_script_event; zero_byte_event; bar_event]
           registered_provider ∅).
  reflexivity.
Defined.

(** X11: there is one method-load call for each JIT code-added
    notification of the sequence, whatever else the sequence holds, and
    never more source-load calls than method-load calls. *)
Theorem method_load_per_notification (events : list JitCodeEvent) :
  forall (p : V8Provider) (m : ScriptMapType),
  isolate_script_map p = live m ->
  exists p' calls,
    LogCodeEvents p events = Some (p', calls)
    /\ length (List.filter is_method_load calls)
       = length (List.filter jit_code_added events)
    /\ (length (List.filter is_source_load calls)
        <= length (List.filter is_method_load calls))%nat.
Proof.
  induction events as [| e rest IH]; intros p m Hm.
  - exists p, []. repeat split; auto.
  - simpl LogCodeEvents. simpl List.filter.
    destruct (LogCodeEvent_step p m e Hm)
      as [(Hj & Hr) | [(Hj & _ & Hr) | [(s & w & Hj & _ & _ & Hr) | (s & Hj & _ & _ & Hr)]]];
      rewrite Hr, Hj.
    + destruct (IH p m Hm) as (p' & calls & Hrun & H1 & H2).
      rewrite Hrun. exists p', calls. auto.
    + destruct (IH p m Hm) as (p' & calls & Hrun & H1 & H2).
      rewrite Hrun. eexists p', _. split; [reflexivity |].
      simpl. split; lia.
    + destruct (IH (mkV8Provider (state p)
                      (live (<[isolate e := default ∅ (m !! isolate e)]> m))) _ eq_refl)
        as (p' & calls & Hrun & H1 & H2).
      rewrite Hrun. eexists p', _. split; [reflexivity |].
      simpl. split; lia.
    + destruct (IH (mkV8Provider (state p)
                      (live (<[isolate e :=
                                 <[GetId s := resolved_name s]>
                                   (default ∅ (m !! isolate e))]> m))) _ eq_refl)
        as (p' & calls & Hrun & H1 & H2).
      rewrite Hrun. eexists p', _. split; [reflexivity |].
      simpl. split; lia.
Qed.

(** A byte-code notification among three for JIT code. *)
Lemma method_load_per_notification_witness :
  exists p' calls,
    LogCodeEvents registered_provider
      [foo_event;
       mkJitCodeEvent CODE_ADDED BYTE_CODE 0 0 (Some script7) [] 0xAA00;
       zero_byte_event; bar_event] = Some (p', calls)
    /\ length (List.filter is_method_load calls)
       = length (List.filter jit_code_added
                   [foo_event;
                    mkJitCodeEvent CODE_ADDED BYTE_CODE 0 0 (Some script7) [] 0xAA00;
                    zero_byte_event; bar_event])
    /\ (length (List.filter is_source_load calls)
        <= length (List.filter is_method_load calls))%nat.
Proof.
  apply (method_load_per_notification
           [foo_event;
            mkJitCodeEvent CODE_ADDED BYTE_CODE 0 0 (Some script7) [] 0xAA00;
            zero_byte_event; bar_event] registered_provider ∅).
  reflexivity.
Defined.

Lemma int_mod_inj (a b : Z) :
  is_int a -> is_int b -> a mod 2 ^ 64 = b mod 2 ^ 64 -> a = b.
Proof.
  unfold is_int.
  change (2 ^ 64) with 18446744073709551616. change (2 ^ 31) with 2147483648.
  intros Ha Hb H. revert H. Z.div_mod_to_equations. lia.
Qed.

Lemma source_load_for_source_load (iso sid : Z) (st : ProviderState)
    (sid' iso' : Z) (url : list Z) :
  is_int sid -> is_int sid' ->
  source_load_for iso sid (source_load_call st sid' iso' url)
  = bool_decide (iso' = iso /\ sid' = sid).
Proof.
  intros Hs Hs'. unfold source_load_for, source_load_call, is_source_load. simpl.
  destruct (decide (iso' = iso /\ sid' = sid)) as [[-> ->] | Hne].
  - rewrite !bool_decide_eq_true_2 by auto. reflexivity.
  - rewrite (bool_decide_eq_false_2 (_ /\ _)) by exact Hne.
    apply andb_false_iff.
    destruct (decide (iso' = iso)) as [-> | Hi].
    + left. apply bool_decide_eq_false_2. intros H. inversion H as [H'].
      apply Hne. split; [reflexivity |]. apply int_mod_inj; assumption.
    + right. apply bool_decide_eq_false_2. intros H. inversion H. contradiction.
Qed.

Lemma source_load_for_method_load (iso sid : Z) (st : ProviderState)
    (ctx : Z) (event : JitCodeEvent) (sid' : Z) (w : list Z) :
  source_load_for iso sid (method_load_call st ctx event sid' w) = false.
Proof. reflexivity. Qed.

(** X12: in every sequence of notifications, of whatever scripts and
    isolates and in whatever order, at most one source-load call is made
    for a script of an isolate, and none for a script the cache holds at
    the start. *)
Theorem at_most_one_source_load (iso sid : Z) (events : list JitCodeEvent) :
  is_int sid ->
  Forall has_int_script_id events ->
  forall (p : V8Provider) (m : ScriptMapType),
  isolate_script_map p = live m ->
  exists p' calls,
    LogCodeEvents p events = Some (p', calls)
    /\ (length (List.filter (source_load_for iso sid) calls) <= 1)%nat
    /\ (cached_name m iso sid <> None ->
        List.filter (source_load_for iso sid) calls = []).
Proof.
  intros Hsid Hall. induction Hall as [| e rest He _ IH]; intros p m Hm.
  - exists p, []. repeat split; auto.
  - simpl LogCodeEvents.
    destruct (LogCodeEvent_step p m e Hm)
      as [(_ & Hr) | [(_ & _ & Hr) | [(s & w & _ & _ & _ & Hr) | (s & _ & Hs & Hn & Hr)]]];
      rewrite Hr.
    + destruct (IH p m Hm) as (p' & calls & Hrun & H1 & H2).
      rewrite Hrun. exists p', calls. auto.
    + destruct (IH p m Hm) as (p' & calls & Hrun & H1 & H2).
      rewrite Hrun. eexists p', _. split; [reflexivity |].
      cbn [app List.filter]. rewrite !source_load_for_method_load. auto.
    + destruct (IH (mkV8Provider (state p)
                      (live (<[isolate e := default ∅ (m !! isolate e)]> m))) _ eq_refl)
        as (p' & calls & Hrun & H1 & H2).
      rewrite Hrun. eexists p', _. split; [reflexivity |].
      cbn [app List.filter]. rewrite !source_load_for_method_load.
      split; [exact H1 |]. intros Hc. apply H2. rewrite cached_name_touch. exact Hc.
    + destruct (IH (mkV8Provider (state p)
                      (live (<[isolate e :=
                                 <[GetId s := resolved_name s]>
                                   (default ∅ (m !! isolate e))]> m))) _ eq_refl)
        as (p' & calls & Hrun & H1 & H2).
      rewrite Hrun. eexists p', _. split; [reflexivity |].
      cbn [app List.filter]. rewrite !source_load_for_method_load.
      unfold has_int_script_id in He. rewrite Hs in He.
      rewrite (source_load_for_source_load iso sid _ _ _ _ Hsid He).
      rewrite cached_name_insert in H2.
      destruct (decide (iso = isolate e /\ sid = GetId s)) as [[Hi Hd] | Hd].
      * subst iso sid.
        rewrite bool_decide_eq_true_2 in H2 by auto.
        rewrite bool_decide_eq_true_2 by auto.
        rewrite H2 by discriminate. split; [simpl; lia | congruence].
      * rewrite bool_decide_eq_false_2 in H2 by exact Hd.
        rewrite bool_decide_eq_false_2 by (intros [? ?]; apply Hd; auto).
        split; [exact H1 | exact H2].
Qed.

(** Script 7 announced twice, around a script of another isolate. *)
Lemma at_most_one_source_load_witness :
  exists p' calls,
    LogCodeEvents registered_provider
      [foo_event;
       mkJitCodeEvent CODE_ADDED JIT_CODE 0 0 (Some script7) [] 0xBB00;
       bar_event] = Some (p', calls)
    /\ (length (List.filter (source_load_for 0xAA00 7) calls) <= 1)%nat
    /\ (cached_name ∅ 0xAA00 7 <> None ->
        List.filter (source_load_for 0xAA00 7) calls = []).
Proof.
  apply (at_most_one_source_load 0xAA00 7
           [foo_event;
            mkJitCodeEvent CODE_ADDED JIT_CODE 0 0 (Some script7) [] 0xBB00;
            bar_event]).
  - vm_compute. split; [discriminate | reflexivity].
  - repeat constructor; vm_compute; discriminate.
  - reflexivity.
Defined.

Example interleaved_source_loads :
  (fun r => match r with
            | Some (_, calls) =>
              (length (List.filter (source_load_for 0xAA00 7) calls),
               length (List.filter (source_load_for 0xBB00 7) calls),
               length (List.filter is_source_load calls))
            | None => (0, 0, 0)%nat
            end)
    (LogCodeEvents registered_provider
       [foo_event;
        mkJitCodeEvent CODE_ADDED JIT_CODE 0 0 (Some script7) [] 0xBB00;
        bar_event])
  = (1, 1, 2)%nat.
Proof. vm_compute. reflexivity. Qed.

(** X13: [LogCodeEvent] goes wrong in one case only: a JIT code-added
    notification that has a script while the map pointer is null or
    freed.  Every other notification is handled whatever the pointer
    is. *)
Theorem LogCodeEvent_fails_iff (p : V8Provider) (event : JitCodeEvent) :
  LogCodeEvent p event = None <->
  jit_code_added event = true
  /\ script event <> None
  /\ (isolate_script_map p = null \/ isolate_script_map p = dangling).
Proof.
  unfold LogCodeEvent, jit_code_added.
  destruct (code_type event).
  { split; [discriminate | intros (? & _); discriminate]. }
  destruct (type event);
    try (split; [discriminate | intros (? & _); discriminate]).
  destruct (script event) as [s |].
  - destruct (isolate_script_map p) as [| m |].
    + split; [intros _; repeat split; [discriminate | left; reflexivity] | reflexivity].
    + split.
      * destruct (default ∅ (m !! isolate event) !! GetId s); discriminate.
      * intros (_ & _ & [H | H]); discriminate.
    + split; [intros _; repeat split; [discriminate | right; reflexivity] | reflexivity].
  - split; [discriminate | intros (_ & H & _); contradiction].
Qed.

(** X14: the handler's gate does not look at the keyword mask.  With the
    provider enabled at level Info or above and the keyword of the code
    events switched off, the notification of a new script still goes
    through: the script is cached and both calls are made with a
    descriptor that [IsEnabled(event)] turns down on that state; once the
    script is cached, no state makes the handler call source-load for it
    again. *)
Theorem CodeEventHandler_ignores_keywords (p : V8Provider) (m : ScriptMapType)
    (event : JitCodeEvent) (s : UnboundScript) :
  IsEnabled (state p) = true ->
  kLevelInfo <= level (state p) ->
  Z.land kJScriptRuntimeKeyword (keywords (state p)) = 0 ->
  isolate_script_map p = live m ->
  jit_code_added event = true ->
  script event = Some s ->
  cached_name m (isolate event) (GetId s) = None ->
  exists p' source_load method_load,
    CodeEventHandler p event = Some (p', [source_load; method_load])
    /\ is_source_load source_load = true
    /\ is_method_load method_load = true
    /\ IsEnabled_event (call_state source_load) (call_descriptor source_load)
       = false
    /\ IsEnabled_event (call_state method_load) (call_descriptor method_load)
       = false
    /\ forall st' : ProviderState,
         exists p'' method_load',
           LogCodeEvent (mkV8Provider st' (isolate_script_map p')) event
             = Some (p'', [method_load'])
           /\ is_method_load method_load' = true.
Proof.
  intros He Hl Hk Hm Hj Hs Hn.
  assert (Hc : code_type event = JIT_CODE /\ type event = CODE_ADDED).
  { unfold jit_code_added in Hj. destruct (code_type event); [discriminate |].
    destruct (type event); try discriminate. split; reflexivity. }
  destruct Hc as [Hc Ht].
  rewrite (CodeEventHandler_open p event He Hl).
  rewrite (LogCodeEvent_miss p m event s Hm Hc Ht Hs Hn).
  assert (Hoff : forall info, ev_keywords info = kJScriptRuntimeKeyword ->
            IsEnabled_event (state p) info = false).
  { intros info Hi. unfold IsEnabled_event. rewrite Hi, Hk.
    destruct (enabled (state p) =? 0); [reflexivity |].
    destruct (ev_level info >? level (state p)); reflexivity. }
  eexists _, _, _. split; [reflexivity |].
  split; [reflexivity |]. split; [reflexivity |].
  split; [apply Hoff; reflexivity |]. split; [apply Hoff; reflexivity |].
  intros st'. eexists _, _. split.
  - eapply (LogCodeEvent_hit _ _ event s (resolved_name s));
      [reflexivity | exact Hc | exact Ht | exact Hs |].
    apply cached_name_after_miss.
  - reflexivity.
Qed.

(** Level Verbose with the keywords [0xE], which lack the keyword of the
    code events. *)
Lemma CodeEventHandler_ignores_keywords_witness :
  exists p' source_load method_load,
    CodeEventHandler
      (mkV8Provider (mkProviderState 1 1 kLevelVerbose 0xE []) (live ∅)) foo_event
      = Some (p', [source_load; method_load])
    /\ is_source_load source_load = true
    /\ is_method_load method_load = true
    /\ IsEnabled_event (call_state source_load) (call_descriptor source_load)
       = false
    /\ IsEnabled_event (call_state method_load) (call_descriptor method_load)
       = false
    /\ forall st' : ProviderState,
         exists p'' method_load',
           LogCodeEvent (mkV8Provider st' (isolate_script_map p')) foo_event
             = Some (p'', [method_load'])
           /\ is_method_load method_load' = true.
Proof.
  apply (CodeEventHandler_ignores_keywords
           (mkV8Provider (mkProviderState 1 1 kLevelVerbose 0xE []) (live ∅))
           ∅ foo_event script7).
  - reflexivity.
  - vm_compute. discriminate.
  - reflexivity.
  - reflexivity.
  - reflexivity.
  - reflexivity.
  - reflexivity.
Defined.

(** * Further properties of registration *)

(** X15: after [UnregisterEtwProvider] of a registered provider the
    map pointer is left pointing to the freed map, and the handler does
    not go near it: the provider is disabled, so every notification
    returns at the gate. *)
Theorem CodeEventHandler_after_Unregister (pr : Process) (m : ScriptMapType) :
  regHandle (state (v8Provider pr)) <> 0 ->
  isolate_script_map (v8Provider pr) = live m ->
  exists pr',
    UnregisterEtwProvider pr = Some pr'
    /\ isolate_script_map (v8Provider pr') = dangling
    /\ IsEnabled (state (v8Provider pr')) = false
    /\ forall event,
         CodeEventHandler (v8Provider pr') event = Some (v8Provider pr', []).
Proof.
  intros Hh Hm. unfold UnregisterEtwProvider, Unregister.
  destruct (Z.eqb_spec (regHandle (state (v8Provider pr))) 0); [contradiction |].
  rewrite Hm. eexists. split; [reflexivity |]. repeat split.
Qed.

(** The process of the first epoch, unregistered. *)
Lemma CodeEventHandler_after_Unregister_witness :
  exists pr',
    UnregisterEtwProvider process_after_foo = Some pr'
    /\ isolate_script_map (v8Provider pr') = dangling
    /\ IsEnabled (state (v8Provider pr')) = false
    /\ forall event,
         CodeEventHandler (v8Provider pr') event = Some (v8Provider pr', []).
Proof.
  apply (CodeEventHandler_after_Unregister process_after_foo
           {[ 0xAA00 := {[ 7 := chars "a.js" ]} ]}).
  - vm_compute. discriminate.
  - reflexivity.
Defined.

(** X16: [UnregisterEtwProvider] does not reset the pointer it frees:
    called twice with no [RegisterEtwProvider] in between, the second call
    frees the same map again.  Called before any registration, with the
    pointer still null, it frees nothing and can be repeated. *)
Theorem UnregisterEtwProvider_twice (pr : Process) :
  (forall m, isolate_script_map (v8Provider pr) = live m ->
     exists pr', UnregisterEtwProvider pr = Some pr'
                 /\ UnregisterEtwProvider pr' = None)
  /\ (isolate_script_map (v8Provider pr) = null ->
      exists pr', UnregisterEtwProvider pr = Some pr'
                  /\ isolate_script_map (v8Provider pr') = null
                  /\ UnregisterEtwProvider pr' = Some pr').
Proof.
  split.
  - intros m Hm. unfold UnregisterEtwProvider at 1.
    destruct (Unregister (runtime pr) (state (v8Provider pr))) as [rt st].
    rewrite Hm. eexists. split; [reflexivity |].
    unfold UnregisterEtwProvider. simpl.
    destruct (Unregister rt st). reflexivity.
  - intros Hm. unfold UnregisterEtwProvider, Unregister. rewrite Hm.
    destruct (Z.eqb_spec (regHandle (state (v8Provider pr))) 0) as [E | E].
    + eexists. split; [reflexivity |]. split; [reflexivity |].
      simpl. rewrite E. reflexivity.
    + eexists. split; [reflexivity |]. split; reflexivity.
Qed.

Section FirstRegistration.

Variable EventRegister : GUID -> Z * Z.

(** X17: the first [RegisterEtwProvider] of a process registers under
    the Chakra GUID, not under the GUID made from the provider's name,
    stores the handle the operating system gives, leaves the enable mask
    alone and starts with an empty cache. *)
Theorem RegisterEtwProvider_first (pr : Process) :
  Register_hr (runtime pr) = None ->
  exists pr',
    RegisterEtwProvider EventRegister pr = Some pr'
    /\ os_calls (runtime pr') = os_calls (runtime pr) ++ [os_EventRegister kChakraGuid]
    /\ kChakraGuid <> kProviderGuid
    /\ Register_hr (runtime pr') = Some (EventRegister kChakraGuid).1
    /\ regHandle (state (v8Provider pr')) = (EventRegister kChakraGuid).2
    /\ enabled (state (v8Provider pr')) = enabled (state (v8Provider pr))
    /\ level (state (v8Provider pr')) = level (state (v8Provider pr))
    /\ keywords (state (v8Provider pr')) = keywords (state (v8Provider pr))
    /\ isolate_script_map (v8Provider pr') = live ∅.
Proof.
  intros Hhr. unfold RegisterEtwProvider.
  destruct (Register_first EventRegister kChakraGuid kProviderName (runtime pr)
              (state (v8Provider pr)) Hhr)
    as (rt' & st' & Hreg & H1 & H2 & H3 & H4 & H5 & H6);
    [vm_compute; discriminate |].
  rewrite Hreg. eexists. split; [reflexivity |]. simpl.
  split; [exact H2 |]. split; [discriminate |]. repeat split; auto.
Qed.

End FirstRegistration.

(** The fresh process. *)
Lemma RegisterEtwProvider_first_witness :
  exists pr',
    RegisterEtwProvider os_accepts initial_process = Some pr'
    /\ os_calls (runtime pr')
       = os_calls (runtime initial_process) ++ [os_EventRegister kChakraGuid]
    /\ kChakraGuid <> kProviderGuid
    /\ Register_hr (runtime pr') = Some (os_accepts kChakraGuid).1
    /\ regHandle (state (v8Provider pr')) = (os_accepts kChakraGuid).2
    /\ enabled (state (v8Provider pr')) = enabled (state (v8Provider initial_process))
    /\ level (state (v8Provider pr')) = level (state (v8Provider initial_process))
    /\ keywords (state (v8Provider pr'))
       = keywords (state (v8Provider initial_process))
    /\ isolate_script_map (v8Provider pr') = live ∅.
Proof.
  apply (RegisterEtwProvider_first os_accepts initial_process). reflexivity.
Defined.

(** * Further properties of the method name *)

(** X18: whatever bytes the name holds, well-formed or not, the buffer
    passed on as the method name is the whole decoded text followed by at
    least one zero unit, in one unit more than the name has bytes: the
    conversion never lacks room and the name is always terminated. *)
Theorem method_name_terminated (event : JitCodeEvent) :
  exists k : nat,
    decode_method_name event
    = utf16_of_utf8 (name event) ++ replicate (S k) 0
    /\ length (decode_method_name event) = S (length (name event)).
Proof.
  pose proof (utf16_of_utf8_length (name event)) as Hlen.
  exists (length (name event) - length (utf16_of_utf8 (name event)))%nat.
  rewrite decode_method_name_eq.
  replace (S (length (name event)) - length (utf16_of_utf8 (name event)))%nat
    with (S (length (name event) - length (utf16_of_utf8 (name event)))) by lia.
  split; [reflexivity |].
  rewrite length_app, length_replicate. lia.
Qed.

Lemma utf16_of_utf8_ascii (bs : list Z) :
  Forall (fun b => 0 <= b <= 0x7F) bs -> utf16_of_utf8 bs = bs.
Proof.
  unfold utf16_of_utf8. induction 1 as [| b r Hb _ IH]; [reflexivity |].
  assert (Hr : in_range 0 0x7F b = true).
  { unfold in_range. apply andb_true_iff. split; apply Z.leb_le; lia. }
  destruct (ascii_facts b Hr) as (_ & _ & Hu).
  cbn [utf8_decode]. rewrite Hr. cbn [map concat]. rewrite Hu, IH. reflexivity.
Qed.

(** X19: a name of bytes between 1 and 127 is passed on unit for byte,
    with one zero unit after it. *)
Theorem method_name_ascii (event : JitCodeEvent) :
  Forall (fun b => 1 <= b <= 0x7F) (name event) ->
  decode_method_name event = name event ++ [0]
  /\ c_str (decode_method_name event) = name event.
Proof.
  intros H.
  assert (H0 : Forall (fun b => 0 <= b <= 0x7F) (name event))
    by (eapply Forall_impl; [exact H | simpl; intros; lia]).
  assert (Hnz : Forall (fun b => b <> 0) (name event))
    by (eapply Forall_impl; [exact H | simpl; intros; lia]).
  rewrite decode_method_name_eq, (utf16_of_utf8_ascii _ H0).
  replace (S (length (name event)) - length (name event))%nat with 1%nat by lia.
  split; [reflexivity |]. apply (c_str_app_zero _ 0 Hnz).
Qed.

(** The name "foo". *)
Lemma method_name_ascii_witness :
  decode_method_name foo_event = name foo_event ++ [0]
  /\ c_str (decode_method_name foo_event) = name foo_event.
Proof.
  apply (method_name_ascii foo_event).
  repeat constructor; vm_compute; discriminate.
Defined.

(** * The Chakra provider and the V8 provider *)

Lemma to_int64_mod (n : Z) : Chakra.to_int64 n mod 2 ^ 64 = n mod 2 ^ 64.
Proof.
  unfold Chakra.to_int64.
  change (2 ^ 64) with 18446744073709551616.
  change (2 ^ 63) with 9223372036854775808.
  Z.div_mod_to_equations. lia.
Qed.

Lemma MethodLoad_method_load_call (provider : Chakra.ChakraEtwProvider)
    (event : JitCodeEvent) (script_id : Z) (w : list Z) :
  Chakra.MethodLoad provider (isolate event) (code_start event)
    (Chakra.to_int64 (code_len event)) 0 0 0 script_id 0 0 w
  = [method_load_call (Chakra.base provider) (isolate event) event script_id w].
Proof.
  unfold Chakra.MethodLoad, method_load_call. rewrite to_int64_mod. reflexivity.
Qed.

Section ChakraFacts.

Variable IsEventEnabled : ProviderState -> Z -> Z -> bool.

(** X20: on JIT code the earlier translator and [LogCodeEvent] are the
    same function: started on the same enable state and the same cache,
    with the earlier gate open, they make the same [LogEventData] calls,
    descriptor, metadata and arguments alike, and leave the same cache. *)
Theorem EtwEventHandler_agrees (s : Chakra.Statics)
    (provider : Chakra.ChakraEtwProvider) (p : V8Provider)
    (event : JitCodeEvent) :
  Chakra.etw_provider s = Some provider ->
  IsEventEnabled (Chakra.base provider) kLevelInfo 0 = true ->
  code_type event = JIT_CODE ->
  state p = Chakra.base provider ->
  isolate_script_map p = live (Chakra.script_map provider) ->
  exists m' calls,
    LogCodeEvent p event = Some (mkV8Provider (state p) (live m'), calls)
    /\ Chakra.EtwEventHandler IsEventEnabled s event
       = Some (Chakra.mkStatics (Chakra.once_init s)
                 (Some (Chakra.mkChakraEtwProvider (Chakra.base provider) m')),
               calls).
Proof.
  intros Hs Hgate Hc Hst Hm.
  destruct s as [once ptr]. simpl in Hs. subst ptr.
  destruct provider as [b m]. destruct p as [st ptr]. simpl in *. subst st ptr.
  unfold Chakra.EtwEventHandler, LogCodeEvent. simpl.
  rewrite Hgate, Hc. simpl.
  destruct (type event); try (eexists _, _; split; reflexivity).
  destruct (script event) as [scr |].
  - destruct (default ∅ (m !! isolate event) !! GetId scr) eqn:Hn.
    + eexists _, _. split; [reflexivity |].
      rewrite MethodLoad_method_load_call. reflexivity.
    + destruct (GetScriptName scr); simpl; rewrite insert_insert_eq;
        eexists _, _; (split; [reflexivity |]);
        rewrite MethodLoad_method_load_call; reflexivity.
  - eexists _, _. split; [reflexivity |].
    rewrite MethodLoad_method_load_call. reflexivity.
Qed.

(** X21: where they differ is byte code: the earlier translator does not
    look at the code type and makes its method-load call, and a
    source-load call for a new script, for a code-added notification of
    byte code, which [LogCodeEvent] drops. *)
Theorem EtwEventHandler_byte_code (s : Chakra.Statics)
    (provider : Chakra.ChakraEtwProvider) (p : V8Provider)
    (event : JitCodeEvent) :
  Chakra.etw_provider s = Some provider ->
  IsEventEnabled (Chakra.base provider) kLevelInfo 0 = true ->
  code_type event = BYTE_CODE ->
  type event = CODE_ADDED ->
  LogCodeEvent p event = Some (p, [])
  /\ exists s' calls method_load,
       Chakra.EtwEventHandler IsEventEnabled s event = Some (s', calls)
       /\ last calls = Some method_load
       /\ is_method_load method_load = true
       /\ method_name_of method_load = Some (decode_method_name event).
Proof.
  intros Hs Hgate Hc Ht. split.
  { unfold LogCodeEvent. rewrite Hc. reflexivity. }
  unfold Chakra.EtwEventHandler. rewrite Hs, Hgate, Ht. simpl.
  destruct (script event) as [scr |].
  - unfold Chakra.GetScriptMapForIsolate.
    destruct (default ∅ (Chakra.script_map provider !! isolate event) !! GetId scr).
    + eexists _, _, _. split; [reflexivity |]. repeat split.
    + eexists _, _, _. split; [reflexivity |]. repeat split.
  - eexists _, _, _. split; [reflexivity |]. repeat split.
Qed.

(** X22: the version of the earlier translator that keeps no map makes
    the method-load calls of [LogCodeEvent] and nothing else: no
    source-load call, and its statics are not written. *)
Theorem Early_EtwEventHandler_method_loads (s : Chakra.Statics)
    (provider : Chakra.ChakraEtwProvider) (p : V8Provider) (m : ScriptMapType)
    (event : JitCodeEvent) :
  Chakra.etw_provider s = Some provider ->
  IsEventEnabled (Chakra.base provider) kLevelInfo 0 = true ->
  state p = Chakra.base provider ->
  isolate_script_map p = live m ->
  exists p' calls,
    LogCodeEvent p event = Some (p', calls)
    /\ Chakra.Early.EtwEventHandler IsEventEnabled s event
       = Some (s, List.filter is_method_load calls).
Proof.
  intros Hs Hgate Hst Hm.
  unfold Chakra.Early.EtwEventHandler. rewrite Hs, Hgate. simpl.
  destruct (LogCodeEvent_step p m event Hm)
    as [(Hj & Hr) | [(Hj & Hn & Hr) | [(scr & w & Hj & Hn & _ & Hr) | (scr & Hj & Hn & _ & Hr)]]];
    rewrite Hr; eexists _, _; (split; [reflexivity |]);
    unfold jit_code_added in Hj;
    destruct (code_type event); try discriminate; try reflexivity;
    destruct (type event); try discriminate; try reflexivity;
    rewrite Hn, MethodLoad_method_load_call, Hst; reflexivity.
Qed.

End ChakraFacts.

Section ChakraInitialization.

Variable EtwProvider_new : GUID -> string -> ProviderState.
Variable IsEventEnabled : ProviderState -> Z -> Z -> bool.

(** X23: before [InitializeEtw] the handler works through a null
    pointer.  After it the handler always returns, and a further
    [InitializeEtw] changes nothing: unlike [RegisterEtwProvider], it
    keeps the script map with what has been announced. *)
Theorem InitializeEtw_once (s : Chakra.Statics) (event : JitCodeEvent) :
  (Chakra.once_init s = true -> Chakra.etw_provider s <> None) ->
  Chakra.EtwEventHandler IsEventEnabled Chakra.initial_statics event = None
  /\ exists s' calls,
       Chakra.EtwEventHandler IsEventEnabled
         (Chakra.InitializeEtw EtwProvider_new s) event = Some (s', calls)
       /\ Chakra.InitializeEtw EtwProvider_new s' = s'.
Proof.
  intros Hinv. split; [reflexivity |].
  assert (Hs : exists provider,
             Chakra.once_init (Chakra.InitializeEtw EtwProvider_new s) = true
             /\ Chakra.etw_provider (Chakra.InitializeEtw EtwProvider_new s)
                = Some provider).
  { unfold Chakra.InitializeEtw. destruct (Chakra.once_init s) eqn:Ho.
    - destruct (Chakra.etw_provider s) as [provider |] eqn:Hp;
        [exists provider; auto | exfalso; apply (Hinv eq_refl); reflexivity].
    - eexists. split; reflexivity. }
  destruct Hs as (provider & Hon & Hp).
  set (s1 := Chakra.InitializeEtw EtwProvider_new s) in *.
  unfold Chakra.EtwEventHandler. rewrite Hp.
  destruct (IsEventEnabled (Chakra.base provider) kLevelInfo 0); simpl.
  2:{ exists s1, []. split; [reflexivity |].
      unfold Chakra.InitializeEtw at 1. rewrite Hon. reflexivity. }
  destruct (type event);
    try (exists s1, []; split; [reflexivity |];
         unfold Chakra.InitializeEtw at 1; rewrite Hon; reflexivity).
  destruct (script event) as [scr |].
  - unfold Chakra.GetScriptMapForIsolate.
    destruct (default ∅ (Chakra.script_map provider !! isolate event) !! GetId scr);
      eexists _, _; (split; [reflexivity |]);
      unfold Chakra.InitializeEtw; simpl; rewrite Hon; reflexivity.
  - eexists _, _. split; [reflexivity |].
    unfold Chakra.InitializeEtw. simpl. rewrite Hon. reflexivity.
Qed.

End ChakraInitialization.

(** The notification "foo" given to both translators. *)
Lemma EtwEventHandler_agrees_witness :
  exists m' calls,
    LogCodeEvent registered_provider foo_event
      = Some (mkV8Provider (state registered_provider) (live m'), calls)
    /\ Chakra.EtwEventHandler sample_IsEventEnabled sample_statics foo_event
       = Some (Chakra.mkStatics (Chakra.once_init sample_statics)
                 (Some (Chakra.mkChakraEtwProvider scenario_state m')),
               calls).
Proof.
  apply (EtwEventHandler_agrees sample_IsEventEnabled sample_statics
           (Chakra.mkChakraEtwProvider scenario_state ∅)
           registered_provider foo_event); reflexivity.
Defined.

(** A byte-code notification given to both translators. *)
Lemma EtwEventHandler_byte_code_witness :
  LogCodeEvent registered_provider byte_code_event
    = Some (registered_provider, [])
  /\ exists s' calls method_load,
       Chakra.EtwEventHandler sample_IsEventEnabled sample_statics byte_code_event
         = Some (s', calls)
       /\ last calls = Some method_load
       /\ is_method_load method_load = true
       /\ method_name_of method_load = Some (decode_method_name byte_code_event).
Proof.
  apply (EtwEventHandler_byte_code sample_IsEventEnabled sample_statics
           (Chakra.mkChakraEtwProvider scenario_state ∅)
           registered_provider byte_code_event); reflexivity.
Defined.

(** The notification "foo" given to the translator without a map. *)
Lemma Early_EtwEventHandler_method_loads_witness :
  exists p' calls,
    LogCodeEvent registered_provider foo_event = Some (p', calls)
    /\ Chakra.Early.EtwEventHandler sample_IsEventEnabled sample_statics foo_event
       = Some (sample_statics, List.filter is_method_load calls).
Proof.
  apply (Early_EtwEventHandler_method_loads sample_IsEventEnabled sample_statics
           (Chakra.mkChakraEtwProvider scenario_state ∅)
           registered_provider ∅ foo_event); reflexivity.
Defined.

(** The statics at the start of the process. *)
Lemma InitializeEtw_once_witness :
  Chakra.EtwEventHandler sample_IsEventEnabled Chakra.initial_statics foo_event
    = None
  /\ exists s' calls,
       Chakra.EtwEventHandler sample_IsEventEnabled
         (Chakra.InitializeEtw sample_EtwProvider_new Chakra.initial_statics)
         foo_event = Some (s', calls)
       /\ Chakra.InitializeEtw sample_EtwProvider_new s' = s'.
Proof.
  apply (InitializeEtw_once sample_EtwProvider_new sample_IsEventEnabled
           Chakra.initial_statics foo_event).
  discriminate.
Defined.

(** * Further properties of the event catalogue *)

(** X24: nine public operations look at [IsEnabled()] first and make no
    call on a provider that is not enabled, and the two marking
    operations never make one; the other ten operations, [Deopt] and
    [DisableOpt] among them, call [LogEventData] once whatever the state
    is. *)
Theorem gated_operations (p : V8Provider) (msg reason kind src fn : string)
    (isolate line column : Z) :
  (IsEnabled (state p) = false ->
   Msg p msg ++ ParsingStart p isolate ++ ParsingStop p isolate
   ++ GenerateUnoptimizedCodeStart p isolate
   ++ GenerateUnoptimizedCodeStop p isolate
   ++ JitExecuteStart p ++ JitExecuteStop p
   ++ JitFinalizeStart p ++ JitFinalizeStop p = [])
  /\ ConcurrentMarkingStart p ++ ConcurrentMarkingStop p = []
  /\ Forall (fun calls : list Call => length calls = 1%nat)
       [InitializePlatform p; ShutdownPlatform p; InitializeV8 p; TearDownV8 p;
        IsolateStart p isolate; IsolateStop p isolate;
        SnapshotInitStart p isolate; SnapshotInitStop p isolate;
        Deopt p reason kind src fn line column; DisableOpt p fn reason]
  /\ (IsEnabled (state p) = true ->
      Forall (fun calls : list Call => length calls = 1%nat)
        [Msg p msg; ParsingStart p isolate; ParsingStop p isolate;
         GenerateUnoptimizedCodeStart p isolate;
         GenerateUnoptimizedCodeStop p isolate;
         JitExecuteStart p; JitExecuteStop p;
         JitFinalizeStart p; JitFinalizeStop p]).
Proof.
  split; [| split; [| split]].
  - intros H. unfold Msg, ParsingStart, ParsingStop, GenerateUnoptimizedCodeStart,
      GenerateUnoptimizedCodeStop, JitExecuteStart, JitExecuteStop,
      JitFinalizeStart, JitFinalizeStop. rewrite H. reflexivity.
  - reflexivity.
  - repeat constructor.
  - intros H. unfold Msg, ParsingStart, ParsingStop, GenerateUnoptimizedCodeStart,
      GenerateUnoptimizedCodeStop, JitExecuteStart, JitExecuteStop,
      JitFinalizeStart, JitFinalizeStop. rewrite H. repeat constructor.
Qed.

Lemma IsEnabled_event_no_keyword (st : ProviderState) (info : EventInfo) :
  ev_keywords info = 0 ->
  IsEnabled_event st info = IsEnabled st && (ev_level info <=? level st).
Proof.
  intros Hk. unfold IsEnabled_event, IsEnabled. rewrite Hk.
  destruct (enabled st =? 0); [reflexivity |]. simpl.
  destruct (Z.gtb_spec (ev_level info) (level st)),
    (Z.leb_spec (ev_level info) (level st)); try reflexivity; lia.
Qed.

(** X25: the events of the catalogue other than the two code events
    carry no keyword, so the keyword mask of the session never filters
    them: the descriptor of each call passes [IsEnabled(event)] exactly
    when the provider is enabled at the level of the event or above. *)
Theorem catalogue_ignores_keywords (p : V8Provider)
    (msg reason kind src fn : string) (isolate line column : Z) :
  Forall (fun c => call_state c = state p
                   /\ IsEnabled_event (state p) (call_descriptor c)
                      = IsEnabled (state p)
                        && (ev_level (call_descriptor c) <=? level (state p)))
    (LogMsg p msg ++ LogInitializePlatform p ++ LogShutdownPlatform p
     ++ LogInitializeV8 p ++ LogTearDownV8 p
     ++ LogIsolateStart p isolate ++ LogIsolateStop p isolate
     ++ LogSnapshotInitStart p isolate ++ LogSnapshotInitStop p isolate
     ++ LogParsingStart p isolate ++ LogParsingStop p isolate
     ++ LogGenerateUnoptimizedCodeStart p isolate
     ++ LogGenerateUnoptimizedCodeStop p isolate
     ++ LogJitExecuteStart p ++ LogJitExecuteStop p
     ++ LogJitFinalizeStart p ++ LogJitFinalizeStop p
     ++ LogDeopt p reason kind src fn line column
     ++ LogDisableOpt p fn reason).
Proof.
  repeat constructor; apply IsEnabled_event_no_keyword; reflexivity.
Qed.

(** X26: every call the translator makes, in any sequence of
    notifications, passes arguments that match the metadata of its event
    in count, order and type. *)
Theorem LogCodeEvents_calls_match (events : list JitCodeEvent) :
  forall (p : V8Provider) (m : ScriptMapType),
  isolate_script_map p = live m ->
  exists p' calls,
    LogCodeEvents p events = Some (p', calls)
    /\ Forall (fun c => call_matches c = true) calls.
Proof.
  induction events as [| e rest IH]; intros p m Hm.
  - exists p, []. split; [reflexivity | constructor].
  - simpl LogCodeEvents.
    destruct (LogCodeEvent_step p m e Hm)
      as [(_ & Hr) | [(_ & _ & Hr) | [(s & w & _ & _ & _ & Hr) | (s & _ & _ & _ & Hr)]]];
      rewrite Hr.
    + destruct (IH p m Hm) as (p' & calls & Hrun & H).
      rewrite Hrun. exists p', calls. auto.
    + destruct (IH p m Hm) as (p' & calls & Hrun & H).
      rewrite Hrun. eexists p', _. split; [reflexivity |].
      constructor; [reflexivity | exact H].
    + destruct (IH (mkV8Provider (state p)
                      (live (<[isolate e := default ∅ (m !! isolate e)]> m))) _ eq_refl)
        as (p' & calls & Hrun & H).
      rewrite Hrun. eexists p', _. split; [reflexivity |].
      constructor; [reflexivity | exact H].
    + destruct (IH (mkV8Provider (state p)
                      (live (<[isolate e :=
                                 <[GetId s := resolved_name s]>
                                   (default ∅ (m !! isolate e))]> m))) _ eq_refl)
        as (p' & calls & Hrun & H).
      rewrite Hrun. eexists p', _. split; [reflexivity |].
      constructor; [reflexivity |]. constructor; [reflexivity | exact H].
Qed.

(** The notifications "foo" and "bar". *)
Lemma LogCodeEvents_calls_match_witness :
  exists p' calls,
    LogCodeEvents registered_provider [foo_event; bar_event] = Some (p', calls)
    /\ Forall (fun c => call_matches c = true) calls.
Proof.
  apply (LogCodeEvents_calls_match [foo_event; bar_event] registered_provider ∅).
  reflexivity.
Defined.

Section Cycle.

Variable EventRegister : GUID -> Z * Z.

(** X27: a registered provider that is unregistered and registered
    again gets a new empty cache, so that a later unregistration frees a
    map that is there, but no registration: no [EventRegister] call is
    made, the handle stays zero and the provider stays disabled. *)
Theorem RegisterEtwProvider_after_Unregister (pr : Process) (m : ScriptMapType)
    (hr : Z) :
  Register_hr (runtime pr) = Some hr ->
  regHandle (state (v8Provider pr)) <> 0 ->
  isolate_script_map (v8Provider pr) = live m ->
  exists pr1 pr2 pr3,
    UnregisterEtwProvider pr = Some pr1
    /\ RegisterEtwProvider EventRegister pr1 = Some pr2
    /\ isolate_script_map (v8Provider pr2) = live ∅
    /\ regHandle (state (v8Provider pr2)) = 0
    /\ IsEnabled (state (v8Provider pr2)) = false
    /\ os_calls (runtime pr2)
       = os_calls (runtime pr)
         ++ [os_EventUnregister (regHandle (state (v8Provider pr)))]
    /\ UnregisterEtwProvider pr2 = Some pr3
    /\ runtime pr3 = runtime pr2.
Proof.
  intros Hhr Hh Hm. unfold UnregisterEtwProvider at 1. unfold Unregister.
  destruct (Z.eqb_spec (regHandle (state (v8Provider pr))) 0); [contradiction |].
  rewrite Hm.
  set (rt1 := {| Register_hr := Register_hr (runtime pr);
                 os_calls := os_calls (runtime pr)
                   ++ [os_EventUnregister (regHandle (state (v8Provider pr)))] |}).
  set (st1 := {| regHandle := 0; enabled := 0; level := 0; keywords := 0;
                 provider_trait := provider_trait (state (v8Provider pr)) |}).
  destruct (Register_again EventRegister kChakraGuid kProviderName rt1 st1 hr Hhr)
    as (st2 & Hreg & H1 & H2 & _); [vm_compute; discriminate |].
  exists (mkProcess rt1 (mkV8Provider st1 dangling)).
  exists (mkProcess rt1 (mkV8Provider st2 (live ∅))).
  exists (mkProcess rt1 (mkV8Provider st2 dangling)).
  split; [reflexivity |].
  split; [unfold RegisterEtwProvider; cbn [runtime v8Provider state];
          rewrite Hreg; reflexivity |].
  split; [reflexivity |]. split; [exact H1 |].
  split; [unfold IsEnabled; simpl; rewrite H2; reflexivity |].
  split; [reflexivity |].
  unfold UnregisterEtwProvider, Unregister. simpl. rewrite H1. simpl.
  split; reflexivity.
Qed.

End Cycle.

(** The process of the first epoch. *)
Lemma RegisterEtwProvider_after_Unregister_witness :
  exists pr1 pr2 pr3,
    UnregisterEtwProvider process_after_foo = Some pr1
    /\ RegisterEtwProvider os_accepts pr1 = Some pr2
    /\ isolate_script_map (v8Provider pr2) = live ∅
    /\ regHandle (state (v8Provider pr2)) = 0
    /\ IsEnabled (state (v8Provider pr2)) = false
    /\ os_calls (runtime pr2)
       = os_calls (runtime process_after_foo)
         ++ [os_EventUnregister (regHandle (state (v8Provider process_after_foo)))]
    /\ UnregisterEtwProvider pr2 = Some pr3
    /\ runtime pr3 = runtime pr2.
Proof.
  apply (RegisterEtwProvider_after_Unregister os_accepts process_after_foo
           {[ 0xAA00 := {[ 7 := chars "a.js" ]} ]} 0).
  - reflexivity.
  - vm_compute. discriminate.
  - reflexivity.
Defined.
